(** * WebPageSerializer (MHTML): a shallow embedding and its properties

    The development follows [WebPageSerializer.cpp] of Blink: the MHTML
    serializer delegate ([shouldIgnoreAttribute], [rewriteLink]), the
    construction of the frame-to-content-id map, the header / parts / footer
    emitters and the small markup string builders.

    Conventions.
    - A [WTF::String] is either the null string or a sequence of characters;
      [isEmpty] holds for both the null and the zero-length string.
    - A [Frame*] is a pointer identity, modelled as a [positive].
    - An [ASSERT] is compiled in only where assertions are enabled; where it
      is compiled in and does not hold, the call ends with an outcome of its
      own, and where it is compiled out the call goes on.  A member call
      through a null pointer ends the call with an outcome of its own.
    - [MHTMLArchive], [MHTMLParser] and the transfer encoders are defined in
      files that are not among the sources; their definitions here are
      marked as modelled from the spec, and the functions of
      [WebPageSerializer.cpp] that call them take them as parameters where
      a property does not depend on what they compute. *)

From Stdlib Require Import Ascii String List Bool Arith Lia.
From stdpp Require Import base option gmap strings list.

Local Open Scope string_scope.

(** ** WTF::String *)

Module WTF.

Inductive String : Type :=
| null : String
| chars (s : string) : String.

(** [String::isEmpty]: true for the null string and for the string of length 0. *)
Definition isEmpty (s : String) : bool :=
  match s with
  | null => true
  | chars EmptyString => true
  | chars _ => false
  end.

(** The characters of a string; the null string has none. *)
Definition characters (s : String) : string :=
  match s with
  | null => EmptyString
  | chars s => s
  end.

(** [operator+] on a literal, a string and a literal (StringConcatenate.h):
    the result is never null and holds the characters in order. *)
Definition concat3 (a : string) (s : String) (b : string) : String :=
  chars (a +:+ characters s +:+ b).

End WTF.

(** The double quote character, and the one-character string holding it. *)
Definition dquote : ascii := Ascii.ascii_of_nat 34.
Definition q : string := String dquote EmptyString.

(** ** The markup string builders *)

(** The literal preceding the charset in [generateMetaCharsetDeclaration]. *)
Definition metaCharsetPrefix : string :=
  "<meta http-equiv=" +:+ q +:+ "Content-Type" +:+ q +:+ " content=" +:+ q
  +:+ "text/html; charset=".

(** The literal following the charset: a double quote and [>]. *)
Definition tagClose : string := q +:+ ">".

Definition generateMetaCharsetDeclaration (charset : WTF.String) : WTF.String :=
  let charsetString := WTF.concat3 metaCharsetPrefix charset tagClose in
  charsetString.

Definition baseTagEmpty : string := "<base href=" +:+ q +:+ "." +:+ q +:+ ">".
Definition baseTagPrefix : string :=
  "<base href=" +:+ q +:+ "." +:+ q +:+ " target=" +:+ q.

Definition generateBaseTagDeclaration (baseTarget : WTF.String) : WTF.String :=
  if WTF.isEmpty baseTarget then WTF.chars baseTagEmpty
  else
    let baseString := WTF.concat3 baseTagPrefix baseTarget tagClose in
    baseString.

(** Reading a double-quoted attribute value: the characters up to the first
    double quote, and what follows that quote.  When there is no quote the
    whole input is the value. *)
Fixpoint readQuoted (s : string) : string * string :=
  match s with
  | EmptyString => (EmptyString, EmptyString)
  | String c rest =>
      if Ascii.eqb c dquote then (EmptyString, rest)
      else let '(v, r) := readQuoted rest in (String c v, r)
  end.

(** [hasQuote s]: a double quote occurs in [s]. *)
Fixpoint hasQuote (s : string) : bool :=
  match s with
  | EmptyString => false
  | String c rest => Ascii.eqb c dquote || hasQuote rest
  end.

(** ** Frames, documents, elements and attributes *)

(** A [Frame*]: the identity of a live frame (never null where it is a key). *)
Abbreviation Frame := positive (only parsing).

(** A document: the kind tests [rewriteLink] makes on a nested document, and
    what the header is given of the document of the frame. *)
Record Document : Type := mkDocument {
  isHTMLDocument : bool;
  isXHTMLDocument : bool;
  isImageDocument : bool;
  title : WTF.String;
  suggestedMIMEType : WTF.String
}.

(** The dynamic class of an element, as far as the delegate tells classes
    apart: [<frame>] and [<iframe>] derive from [HTMLFrameElementBase];
    [<object>] is a frame owner of its own kind; [OtherFrameOwner] stands for
    the remaining frame owners ([<embed>], [<applet>]) and [OtherElement] for
    the elements that own no frame. *)
Inductive ElementClass : Type :=
| HTMLFrameElement
| HTMLIFrameElement
| HTMLObjectElement
| OtherFrameOwner
| OtherElement.

(** An element; [contentFrame] and [contentDocument] are the members of
    [HTMLFrameOwnerElement] and are read for frame owners only.  [None] is
    the null pointer. *)
Record Element : Type := mkElement {
  elementClass : ElementClass;
  contentFrame : option Frame;
  contentDocument : option Document
}.

Definition isHTMLFrameElementBase (element : Element) : bool :=
  match elementClass element with
  | HTMLFrameElement | HTMLIFrameElement => true
  | _ => false
  end.

Definition isHTMLObjectElement (element : Element) : bool :=
  match elementClass element with
  | HTMLObjectElement => true
  | _ => false
  end.

Definition isFrameOwnerElement (element : Element) : bool :=
  match elementClass element with
  | OtherElement => false
  | _ => true
  end.

(** [AtomicString]: interned strings, compared by identity, which is equality
    of the contents (the null atom differs from the empty atom). *)
Definition AtomicString : Type := WTF.String.

Definition AtomicString_eqb (a b : AtomicString) : bool :=
  match a, b with
  | WTF.null, WTF.null => true
  | WTF.chars x, WTF.chars y => String.eqb x y
  | _, _ => false
  end.

Record QualifiedName : Type := mkQualifiedName {
  qn_prefix : AtomicString;
  qn_localName : AtomicString;
  qn_namespaceURI : AtomicString
}.

Record Attribute : Type := mkAttribute {
  attr_name : QualifiedName;
  attr_value : AtomicString
}.

(** [Attribute::localName()]. *)
Definition localName (attribute : Attribute) : AtomicString :=
  qn_localName (attr_name attribute).

Module HTMLNames.
(** [HTMLNames::srcsetAttr]: the attribute [srcset], in no namespace. *)
Definition srcsetAttr : QualifiedName :=
  mkQualifiedName WTF.null (WTF.chars "srcset") WTF.null.
End HTMLNames.

(** [operator==(const AtomicString&, const QualifiedName&)] compares with the
    local name of the qualified name. *)
Definition AtomicString_eq_QualifiedName (a : AtomicString) (n : QualifiedName) : bool :=
  AtomicString_eqb a (qn_localName n).

(** ** KURL and the frame-to-content-id map *)

Record KURL : Type := mkKURL {
  KURL_string : WTF.String;
  KURL_isValid : bool
}.

(** [HashMap::add]: an existing entry is kept. *)
Definition HashMap_add (key : Frame) (mapped : WTF.String)
    (m : gmap Frame WTF.String) : gmap Frame WTF.String :=
  match m !! key with
  | Some _ => m
  | None => <[key := mapped]> m
  end.

(** [HashMap::get]: the empty value of the mapped type, here the null string,
    when the key is absent. *)
Definition HashMap_get (m : gmap Frame WTF.String) (key : Frame) : WTF.String :=
  match m !! key with
  | Some v => v
  | None => WTF.null
  end.

(** A [WebFrame*]; [toImplBase()->frame()] is the core frame behind it. *)
Record WebFrame : Type := mkWebFrame {
  toImplBase_frame : Frame
}.

(** A [WebString] wraps a [WTF::String]. *)
Abbreviation WebString := WTF.String (only parsing).

Definition createFrameToContentIDMap
    (webFrameToContentID : list (WebFrame * WebString)) : gmap Frame WTF.String :=
  fold_left
    (fun result it =>
       let webFrame := fst it in
       let webContentID := snd it in
       let frame := toImplBase_frame webFrame in
       let contentID : WTF.String := webContentID in
       HashMap_add frame contentID result)
    webFrameToContentID ∅.

(** The content id of the first pair of the caller's vector that names the
    frame. *)
Fixpoint firstContentID (frame : Frame) (pairs : list (WebFrame * WebString))
    : option WTF.String :=
  match pairs with
  | [] => None
  | it :: rest =>
      if Pos.eqb (toImplBase_frame (fst it)) frame then Some (snd it)
      else firstContentID frame rest
  end.

(** ** Outcomes of a call *)

Inductive outcome (A : Type) : Type :=
| Returns (a : A)
| AssertionFailure
| NullDereference.

Arguments Returns {A} a.
Arguments AssertionFailure {A}.
Arguments NullDereference {A}.

(** ** The build *)

(** [ASSERT] (wtf/Assertions.h) is a debug-only macro: it checks its
    condition where assertions are enabled and expands to nothing where they
    are not. *)
Class Build : Type := mkBuild {
  assertEnabled : bool
}.

Definition debugBuild : Build := mkBuild true.
Definition releaseBuild : Build := mkBuild false.

(** ** The MHTML serializer delegate *)

Module MHTMLPageSerializerDelegate.

Definition shouldIgnoreAttribute (attribute : Attribute) : bool :=
  AtomicString_eq_QualifiedName (localName attribute) HTMLNames.srcsetAttr.

Section RewriteLink.

Context {build : Build}.

(** [MHTMLParser::convertContentIDToURI], declared in
    platform/mhtml/MHTMLParser.h. *)
Variable convertContentIDToURI : WTF.String -> KURL.

(** The member [m_frameToContentID]. *)
Variable m_frameToContentID : gmap Frame WTF.String.

(** [rewriteLink(element, rewrittenLink)]: the returned flag and the value
    of the out-parameter [rewrittenLink] after the call. *)
Definition rewriteLink (element : Element) (rewrittenLink : WTF.String)
    : outcome (bool * WTF.String) :=
  if negb (isFrameOwnerElement element) then Returns (false, rewrittenLink)
  else
    match contentFrame element with
    | None => Returns (false, rewrittenLink)
    | Some frame =>
        let cidURI := convertContentIDToURI (HashMap_get m_frameToContentID frame) in
        if assertEnabled && negb (KURL_isValid cidURI) then AssertionFailure
        else if isHTMLFrameElementBase element then
          Returns (true, KURL_string cidURI)
        else if isHTMLObjectElement element then
          match contentDocument element with
          | None => NullDereference
          | Some doc =>
              let isHandledBySerializer :=
                isHTMLDocument doc || isXHTMLDocument doc || isImageDocument doc in
              if isHandledBySerializer then Returns (true, KURL_string cidURI)
              else Returns (false, rewrittenLink)
          end
        else Returns (false, rewrittenLink)
    end.

End RewriteLink.

End MHTMLPageSerializerDelegate.

(** Whether the link of a frame owner is rewritten: always for a frame or
    iframe element, and for an object element when its document is an HTML,
    XHTML or image document. *)
Definition ownsEmbeddedContent (element : Element) : Prop :=
  isHTMLFrameElementBase element = true
  \/ (isHTMLObjectElement element = true
      /\ exists doc, contentDocument element = Some doc
          /\ isHTMLDocument doc || isXHTMLDocument doc || isImageDocument doc = true).

(** ** MHTMLParser::convertContentIDToURI *)

Module MHTMLParser.

Definition inRange (lo hi : nat) (c : ascii) : bool :=
  let n := nat_of_ascii c in Nat.leb lo n && Nat.leb n hi.

Definition isAlpha (c : ascii) : bool := inRange 65 90 c || inRange 97 122 c.
Definition isDigit (c : ascii) : bool := inRange 48 57 c.

Definition oneOf (set : string) (c : ascii) : bool :=
  existsb (Ascii.eqb c) (list_ascii_of_string set).

(** Characters of a URI scheme after its first letter. *)
Definition isSchemeChar (c : ascii) : bool :=
  isAlpha c || isDigit c || oneOf "+-." c.

(** Characters a URI may hold after the scheme: unreserved, reserved, and the
    percent sign of an escape. *)
Definition isURIChar (c : ascii) : bool :=
  isAlpha c || isDigit c || oneOf "-._~:/?#[]@!$&'()*+,;=%" c.

(** The part after the first colon, when only scheme characters precede it. *)
Fixpoint afterScheme (s : string) : option string :=
  match s with
  | EmptyString => None
  | String c rest =>
      if Ascii.eqb c ":" then Some rest
      else if isSchemeChar c then afterScheme rest
      else None
  end.

(** Syntactic validity of a URI: a scheme that starts with a letter, a colon,
    and URI characters only after it. *)
Definition isValidURI (s : string) : bool :=
  match s with
  | EmptyString => false
  | String c rest =>
      isAlpha c &&
      match afterScheme rest with
      | Some r => forallb isURIChar (list_ascii_of_string r)
      | None => false
      end
  end.

(** [KURL()]: the null URL, which is not valid. *)
Definition nullURL : KURL := mkKURL WTF.null false.

(** [KURL(KURL(), string)]: an absolute URL parsed from a string. *)
Definition parseURL (s : string) : KURL := mkKURL (WTF.chars s) (isValidURI s).

(** Modelled from the spec: [MHTMLParser::convertContentIDToURI] is defined in
    platform/mhtml/MHTMLParser.cpp, which is not among the sources.  By the
    spec the reference for the content id [abc] is the URI [cid:abc], and no
    reference is made up when there is no content id: the empty (or null)
    content id gives the null URL. *)
Definition convertContentIDToURI (contentID : WTF.String) : KURL :=
  if WTF.isEmpty contentID then nullURL
  else parseURL ("cid:" +:+ WTF.characters contentID).

End MHTMLParser.

(** ** MHTMLArchive: transfer encodings *)

Module MHTMLArchive.

Definition CR : ascii := Ascii.ascii_of_nat 13.
Definition LF : ascii := Ascii.ascii_of_nat 10.
Definition padding : ascii := "="%char.

(** The MIME limit on the length of an encoded line. *)
Definition maximumLineLength : nat := 76.

Inductive EncodingPolicy : Type :=
| UseDefaultEncoding
| UseBinaryEncoding.

Inductive TransferEncoding : Type :=
| SevenBit
| QuotedPrintable
| Base64
| Binary.

(** *** Base64 *)

(** Six bits, the most significant first. *)
Definition Sextet : Type := (bool * bool * bool * bool * bool * bool)%type.

Definition sextetValue (s : Sextet) : nat :=
  let '(b5, b4, b3, b2, b1, b0) := s in
  32 * Nat.b2n b5 + 16 * Nat.b2n b4 + 8 * Nat.b2n b3
  + 4 * Nat.b2n b2 + 2 * Nat.b2n b1 + Nat.b2n b0.

Definition sextetOfNat (n : nat) : Sextet :=
  (Nat.testbit n 5, Nat.testbit n 4, Nat.testbit n 3,
   Nat.testbit n 2, Nat.testbit n 1, Nat.testbit n 0).

Definition base64Alphabet : list ascii :=
  list_ascii_of_string
    "ABCDEFGHIJKLMNOPQRSTUVWXYZabcdefghijklmnopqrstuvwxyz0123456789+/".

Definition base64Char (s : Sextet) : ascii :=
  nth (sextetValue s) base64Alphabet padding.

Fixpoint indexOf (c : ascii) (l : list ascii) : option nat :=
  match l with
  | [] => None
  | x :: rest => if Ascii.eqb c x then Some 0 else option_map S (indexOf c rest)
  end.

Definition base64Value (c : ascii) : option Sextet :=
  option_map sextetOfNat (indexOf c base64Alphabet).

(** Three bytes make four characters. *)
Definition encode3 (a b c : ascii) : list ascii :=
  let '(Ascii a0 a1 a2 a3 a4 a5 a6 a7) := a in
  let '(Ascii b0 b1 b2 b3 b4 b5 b6 b7) := b in
  let '(Ascii c0 c1 c2 c3 c4 c5 c6 c7) := c in
  [ base64Char (a7, a6, a5, a4, a3, a2);
    base64Char (a1, a0, b7, b6, b5, b4);
    base64Char (b3, b2, b1, b0, c7, c6);
    base64Char (c5, c4, c3, c2, c1, c0) ].

(** Two trailing bytes make three characters and one padding character. *)
Definition encode2 (a b : ascii) : list ascii :=
  let '(Ascii a0 a1 a2 a3 a4 a5 a6 a7) := a in
  let '(Ascii b0 b1 b2 b3 b4 b5 b6 b7) := b in
  [ base64Char (a7, a6, a5, a4, a3, a2);
    base64Char (a1, a0, b7, b6, b5, b4);
    base64Char (b3, b2, b1, b0, false, false);
    padding ].

(** One trailing byte makes two characters and two padding characters. *)
Definition encode1 (a : ascii) : list ascii :=
  let '(Ascii a0 a1 a2 a3 a4 a5 a6 a7) := a in
  [ base64Char (a7, a6, a5, a4, a3, a2);
    base64Char (a1, a0, false, false, false, false);
    padding;
    padding ].

Fixpoint base64Encode (data : list ascii) : list ascii :=
  match data with
  | [] => []
  | a :: rest1 =>
      match rest1 with
      | [] => encode1 a
      | b :: rest2 =>
          match rest2 with
          | [] => encode2 a b
          | c :: rest => encode3 a b c ++ base64Encode rest
          end
      end
  end.

Definition decodeFirst (s1 s2 : Sextet) : ascii :=
  let '(a7, a6, a5, a4, a3, a2) := s1 in
  let '(a1, a0, _, _, _, _) := s2 in
  Ascii a0 a1 a2 a3 a4 a5 a6 a7.

Definition decodeSecond (s2 s3 : Sextet) : ascii :=
  let '(_, _, b7, b6, b5, b4) := s2 in
  let '(b3, b2, b1, b0, _, _) := s3 in
  Ascii b0 b1 b2 b3 b4 b5 b6 b7.

Definition decodeThird (s3 s4 : Sextet) : ascii :=
  let '(_, _, _, _, c7, c6) := s3 in
  let '(c5, c4, c3, c2, c1, c0) := s4 in
  Ascii c0 c1 c2 c3 c4 c5 c6 c7.

(** Decoding a run of base64 characters without line breaks: groups of four,
    the last of which may end in one or two padding characters. *)
Fixpoint base64Decode (l : list ascii) : option (list ascii) :=
  match l with
  | [] => Some []
  | c1 :: c2 :: c3 :: c4 :: rest =>
      match base64Value c1, base64Value c2 with
      | Some s1, Some s2 =>
          if Ascii.eqb c4 padding then
            match rest with
            | [] =>
                if Ascii.eqb c3 padding then Some [decodeFirst s1 s2]
                else
                  match base64Value c3 with
                  | Some s3 => Some [decodeFirst s1 s2; decodeSecond s2 s3]
                  | None => None
                  end
            | _ :: _ => None
            end
          else
            match base64Value c3, base64Value c4, base64Decode rest with
            | Some s3, Some s4, Some tail =>
                Some (decodeFirst s1 s2 :: decodeSecond s2 s3 :: decodeThird s3 s4 :: tail)
            | _, _, _ => None
            end
      | _, _ => None
      end
  | _ => None
  end.

(** Lines of at most [maximumLineLength] characters, each ended by CR LF;
    [col] is the length of the line being written. *)
Fixpoint wrapLines (col : nat) (l : list ascii) : list ascii :=
  match l with
  | [] => [CR; LF]
  | c :: rest =>
      if Nat.eqb col maximumLineLength then CR :: LF :: c :: wrapLines 1 rest
      else c :: wrapLines (S col) rest
  end.

Definition isLineBreakChar (c : ascii) : bool := Ascii.eqb c CR || Ascii.eqb c LF.

(** No character of [l] is a line-break character. *)
Definition noLineBreak (l : list ascii) : Prop :=
  Forall (fun c => isLineBreakChar c = false) l.

(** The base64 body of a part and its decoding (line breaks are skipped). *)
Definition base64EncodeBody (data : list ascii) : list ascii :=
  wrapLines 0 (base64Encode data).

Definition base64DecodeBody (body : list ascii) : option (list ascii) :=
  base64Decode (List.filter (fun c => negb (isLineBreakChar c)) body).

(** *** Quoted-printable *)

Definition Nibble : Type := (bool * bool * bool * bool)%type.

Definition nibbleValue (n : Nibble) : nat :=
  let '(b3, b2, b1, b0) := n in
  8 * Nat.b2n b3 + 4 * Nat.b2n b2 + 2 * Nat.b2n b1 + Nat.b2n b0.

Definition nibbleOfNat (n : nat) : Nibble :=
  (Nat.testbit n 3, Nat.testbit n 2, Nat.testbit n 1, Nat.testbit n 0).

Definition hexDigits : list ascii := list_ascii_of_string "0123456789ABCDEF".

Definition hexDigit (n : Nibble) : ascii := nth (nibbleValue n) hexDigits "0"%char.

Definition hexValue (c : ascii) : option Nibble :=
  option_map nibbleOfNat (indexOf c hexDigits).

(** A byte written as [=XY], with [XY] its value in upper-case hexadecimal. *)
Definition escapeByte (c : ascii) : list ascii :=
  let '(Ascii b0 b1 b2 b3 b4 b5 b6 b7) := c in
  [ padding; hexDigit (b7, b6, b5, b4); hexDigit (b3, b2, b1, b0) ].

Definition unescapeByte (hi lo : Nibble) : ascii :=
  let '(b7, b6, b5, b4) := hi in
  let '(b3, b2, b1, b0) := lo in
  Ascii b0 b1 b2 b3 b4 b5 b6 b7.

(** A byte stands for itself when it is a printable ASCII character other
    than [=], or a space or tab that is not the last byte of the data. *)
Definition isLiteral (c : ascii) (isLast : bool) : bool :=
  let n := nat_of_ascii c in
  (Nat.leb 33 n && Nat.leb n 126 && negb (Nat.eqb n 61))
  || ((Nat.eqb n 32 || Nat.eqb n 9) && negb isLast).

Definition encodedByte (c : ascii) (isLast : bool) : list ascii :=
  if isLiteral c isLast then [c] else escapeByte c.

(** Quoted-printable with soft line breaks ([=] CR LF): a line, its closing
    [=] included, has at most [maximumLineLength] characters.  [col] is the
    length of the line being written. *)
Fixpoint quotedPrintableEncodeFrom (col : nat) (data : list ascii) : list ascii :=
  match data with
  | [] => []
  | c :: rest =>
      let isLast := match rest with [] => true | _ :: _ => false end in
      let token := encodedByte c isLast in
      if Nat.ltb (maximumLineLength - 1) (col + length token) then
        padding :: CR :: LF :: token ++ quotedPrintableEncodeFrom (length token) rest
      else
        token ++ quotedPrintableEncodeFrom (col + length token) rest
  end.

Definition quotedPrintableEncode (data : list ascii) : list ascii :=
  quotedPrintableEncodeFrom 0 data.

Fixpoint quotedPrintableDecode (l : list ascii) : option (list ascii) :=
  match l with
  | [] => Some []
  | c :: rest =>
      if Ascii.eqb c padding then
        match rest with
        | x :: y :: rest' =>
            if Ascii.eqb x CR && Ascii.eqb y LF then quotedPrintableDecode rest'
            else
              match hexValue x, hexValue y, quotedPrintableDecode rest' with
              | Some hi, Some lo, Some tail => Some (unescapeByte hi lo :: tail)
              | _, _, _ => None
              end
        | _ => None
        end
      else
        match quotedPrintableDecode rest with
        | Some tail => Some (c :: tail)
        | None => None
        end
  end.

(** *** Lines of a body *)

(** The lines of a byte sequence, CR LF being the line break. *)
Fixpoint splitLines (l : list ascii) : list (list ascii) :=
  match l with
  | [] => [[]]
  | c :: rest =>
      match rest with
      | [] => [[c]]
      | c2 :: rest2 =>
          if Ascii.eqb c CR && Ascii.eqb c2 LF then [] :: splitLines rest2
          else
            match splitLines rest with
            | [] => [[c]]
            | line :: lines => (c :: line) :: lines
            end
      end
  end.

(** Every line has at most [maximumLineLength] characters. *)
Definition linesWithinLimit (l : list ascii) : Prop :=
  Forall (fun line => length line <= maximumLineLength) (splitLines l).

(** *** Selection of the transfer encoding, encoding and decoding *)

Section EncodingSelection.

(** The classification of media types as text: declared text and the known
    text-like formats (MIMETypeRegistry, not among the sources). *)
Variable isTextMediaType : string -> bool.

(** Modelled from the spec: the selection of the transfer encoding is part
    of [MHTMLArchive::generateMHTMLPart] (platform/mhtml/MHTMLArchive.cpp,
    not among the sources).  A forced-binary policy always gives [Binary];
    the default policy gives [QuotedPrintable] for text media types and
    [Base64] for all others. *)
Definition selectEncoding (mediaType : string) (policy : EncodingPolicy)
    : TransferEncoding :=
  match policy with
  | UseBinaryEncoding => Binary
  | UseDefaultEncoding =>
      if isTextMediaType mediaType then QuotedPrintable else Base64
  end.

End EncodingSelection.

(** Modelled from the spec: the body of a part under a transfer encoding.
    The encoders (wtf/text/Base64, platform/network/mime/QuotedPrintable) are
    not among the sources; they are the MIME encodings with lines of at most
    76 characters.  Binary and seven-bit bodies are the bytes themselves. *)
Definition encodeBody (encoding : TransferEncoding) (data : list ascii) : list ascii :=
  match encoding with
  | SevenBit => data
  | QuotedPrintable => quotedPrintableEncode data
  | Base64 => base64EncodeBody data
  | Binary => data
  end.

(** Modelled from the spec: what a reader of the archive recovers from a body
    under its transfer encoding; [None] when the body is malformed. *)
Definition decodeBody (encoding : TransferEncoding) (body : list ascii)
    : option (list ascii) :=
  match encoding with
  | SevenBit => Some body
  | QuotedPrintable => quotedPrintableDecode body
  | Base64 => base64DecodeBody body
  | Binary => Some body
  end.

(** *** Resources and parts *)

(** A serialized resource.  Modelled from the spec: platform/SerializedResource.h
    is not among the sources; the spec gives a resource its URL, its media
    type, an optional text encoding name and its bytes. *)
Record SerializedResource : Type := mkSerializedResource {
  url : string;
  mimeType : string;
  textEncodingName : option string;
  data : list ascii
}.

(** The fields and the body of one emitted MIME part. *)
Record MIMEPart : Type := mkMIMEPart {
  part_boundary : string;
  part_contentType : string;
  part_charset : option string;
  part_contentID : option string;
  part_transferEncoding : TransferEncoding;
  part_contentLocation : string;
  part_body : list ascii
}.

Definition bytes (s : string) : list ascii := list_ascii_of_string s.
Definition CRLF : list ascii := [CR; LF].

Definition transferEncodingName (e : TransferEncoding) : string :=
  match e with
  | SevenBit => "7bit"
  | QuotedPrintable => "quoted-printable"
  | Base64 => "base64"
  | Binary => "binary"
  end.

(** The bytes of a part: the delimiter line, the fields, a blank line, the
    body.  The [Content-ID] field is written only for a part that has a
    content id, in angle brackets. *)
Definition serializePart (p : MIMEPart) : list ascii :=
  bytes "--" ++ bytes (part_boundary p) ++ CRLF
  ++ bytes "Content-Type: " ++ bytes (part_contentType p)
  ++ match part_charset p with
     | Some cs => bytes "; charset=" ++ bytes cs
     | None => []
     end ++ CRLF
  ++ match part_contentID p with
     | Some cid => bytes "Content-ID: <" ++ bytes cid ++ bytes ">" ++ CRLF
     | None => []
     end
  ++ bytes "Content-Transfer-Encoding: "
  ++ bytes (transferEncodingName (part_transferEncoding p)) ++ CRLF
  ++ bytes "Content-Location: " ++ bytes (part_contentLocation p) ++ CRLF
  ++ CRLF
  ++ part_body p ++ CRLF.

Section Emitters.

Variable isTextMediaType : string -> bool.

(** Modelled from the spec: [MHTMLArchive::generateMHTMLPart] is defined in
    platform/mhtml/MHTMLArchive.cpp, which is not among the sources.  The
    part has the media type of the resource (with its charset when the
    resource names a text encoding), the transfer encoding selected for
    that media type, the URL of the resource as its location and the
    re-encoded bytes as its body; it has a [Content-ID] only when it is
    passed a content id that is not empty. *)
Definition partOf (boundary contentID : WTF.String) (encodingPolicy : EncodingPolicy)
    (resource : SerializedResource) : MIMEPart :=
  let encoding := selectEncoding isTextMediaType (mimeType resource) encodingPolicy in
  {| part_boundary := WTF.characters boundary;
     part_contentType := mimeType resource;
     part_charset := textEncodingName resource;
     part_contentID :=
       if WTF.isEmpty contentID then None else Some (WTF.characters contentID);
     part_transferEncoding := encoding;
     part_contentLocation := url resource;
     part_body := encodeBody encoding (data resource) |}.

(** [generateMHTMLPart(boundary, contentID, encodingPolicy, resource,
    outputBuffer)]: the part is appended to the buffer. *)
Definition generateMHTMLPart (boundary contentID : WTF.String)
    (encodingPolicy : EncodingPolicy) (resource : SerializedResource)
    (outputBuffer : list ascii) : list ascii :=
  outputBuffer ++ serializePart (partOf boundary contentID encodingPolicy resource).

End Emitters.

(** Modelled from the spec: [MHTMLArchive::generateMHTMLFooter] writes the
    terminal delimiter. *)
Definition generateMHTMLFooter (boundary : WTF.String) (outputBuffer : list ascii)
    : list ascii :=
  outputBuffer ++ bytes "--" ++ bytes (WTF.characters boundary) ++ bytes "--" ++ CRLF.

End MHTMLArchive.

(** ** WebPageSerializer *)

(** A local frame: its identity and its document. *)
Record LocalFrame : Type := mkLocalFrame {
  lf_frame : Frame;
  lf_document : Document
}.

(** A [WebLocalFrame*]; [toWebLocalFrameImpl(frame)->frame()] is the local
    frame behind it. *)
Record WebLocalFrame : Type := mkWebLocalFrame {
  toWebLocalFrameImpl_frame : LocalFrame
}.

(** [PageSerializer::Delegate]: the two decisions the page serializer asks of
    its delegate. *)
Record Delegate : Type := mkDelegate {
  delegate_shouldIgnoreAttribute : Attribute -> bool;
  delegate_rewriteLink : Element -> WTF.String -> outcome (bool * WTF.String)
}.

Module WebPageSerializer.

Import MHTMLArchive.

Section Header.

(** [MHTMLArchive::generateMHTMLHeader(boundary, title, mimeType,
    outputBuffer)], defined in platform/mhtml/MHTMLArchive.cpp. *)
Context {SharedBuffer : Type}.
Variable create : SharedBuffer.
Variable archiveGenerateMHTMLHeader :
  WTF.String -> WTF.String -> WTF.String -> SharedBuffer -> SharedBuffer.

(** [generateMHTMLHeader(boundary, frame)]. *)
Definition generateMHTMLHeader (boundary : WebString) (frame : WebLocalFrame)
    : SharedBuffer :=
  let document := lf_document (toWebLocalFrameImpl_frame frame) in
  let buffer := create in
  archiveGenerateMHTMLHeader boundary (title document) (suggestedMIMEType document)
    buffer.

End Header.

Section Parts.

(** The output buffer and the part emitter: [SharedBuffer::create()] and
    [MHTMLArchive::generateMHTMLPart]. *)
Context {build : Build}.
Context {SharedBuffer : Type}.
Variable create : SharedBuffer.
Variable generateMHTMLPart :
  WTF.String -> WTF.String -> EncodingPolicy -> SerializedResource ->
  SharedBuffer -> SharedBuffer.

(** [MHTMLParser::convertContentIDToURI], for the delegate. *)
Variable convertContentIDToURI : WTF.String -> KURL.

(** [PageSerializer(resources, &delegate).serializeFrame(frame)]: the
    resources of the frame, the document of the frame first. *)
Variable serializeFrame : Delegate -> LocalFrame -> list SerializedResource.

(** The delegate built over the map. *)
Definition delegateOf (frameToContentID : gmap Frame WTF.String) : Delegate :=
  {| delegate_shouldIgnoreAttribute := MHTMLPageSerializerDelegate.shouldIgnoreAttribute;
     delegate_rewriteLink :=
       MHTMLPageSerializerDelegate.rewriteLink convertContentIDToURI frameToContentID |}.

(** The loop over the resources, from a given value of [isFirstResource]
    and a given content of the output buffer. *)
Fixpoint encodeResources (boundary : WTF.String) (frameToContentID : gmap Frame WTF.String)
    (frame : LocalFrame) (encodingPolicy : EncodingPolicy)
    (isFirstResource : bool) (resources : list SerializedResource)
    (output : SharedBuffer) : SharedBuffer :=
  match resources with
  | [] => output
  | resource :: rest =>
      let contentID :=
        if isFirstResource then HashMap_get frameToContentID (lf_frame frame)
        else WTF.null in
      let output := generateMHTMLPart boundary contentID encodingPolicy resource output in
      encodeResources boundary frameToContentID frame encodingPolicy false rest output
  end.

Definition generateMHTMLParts (boundary : WebString) (webFrame : WebLocalFrame)
    (useBinaryEncoding : bool) (webFrameToContentID : list (WebFrame * WebString))
    : SharedBuffer :=
  let frame := toWebLocalFrameImpl_frame webFrame in
  let encodingPolicy :=
    if useBinaryEncoding then UseBinaryEncoding else UseDefaultEncoding in
  let frameToContentID := createFrameToContentIDMap webFrameToContentID in
  let resources := serializeFrame (delegateOf frameToContentID) frame in
  encodeResources boundary frameToContentID frame encodingPolicy true resources create.

End Parts.

(** [generateMHTMLFooter(boundary)]. *)
Definition generateMHTMLFooter (boundary : WebString) : list ascii :=
  let buffer : list ascii := [] in
  MHTMLArchive.generateMHTMLFooter boundary buffer.

End WebPageSerializer.

(** The part emitter that records the parts instead of their bytes;
    [partOf] gives the part written for a resource. *)
Definition recordPart
    (partOf : WTF.String -> WTF.String -> MHTMLArchive.EncodingPolicy ->
              MHTMLArchive.SerializedResource -> MHTMLArchive.MIMEPart)
    (boundary contentID : WTF.String) (policy : MHTMLArchive.EncodingPolicy)
    (resource : MHTMLArchive.SerializedResource)
    (output : list MHTMLArchive.MIMEPart) : list MHTMLArchive.MIMEPart :=
  (output ++ [partOf boundary contentID policy resource])%list.

(** The parts emitted by [generateMHTMLParts], one per call of the part
    emitter, in the order of the calls. *)
Definition emittedParts {build : Build}
    (partOf : WTF.String -> WTF.String -> MHTMLArchive.EncodingPolicy ->
              MHTMLArchive.SerializedResource -> MHTMLArchive.MIMEPart)
    (convertContentIDToURI : WTF.String -> KURL)
    (serializeFrame : Delegate -> LocalFrame -> list MHTMLArchive.SerializedResource)
    (boundary : WebString) (webFrame : WebLocalFrame) (useBinaryEncoding : bool)
    (webFrameToContentID : list (WebFrame * WebString)) : list MHTMLArchive.MIMEPart :=
  WebPageSerializer.generateMHTMLParts [] (recordPart partOf)
    convertContentIDToURI serializeFrame
    boundary webFrame useBinaryEncoding webFrameToContentID.

(** The bytes returned by [generateMHTMLParts]. *)
Definition emittedBytes {build : Build} (isTextMediaType : string -> bool)
    (convertContentIDToURI : WTF.String -> KURL)
    (serializeFrame : Delegate -> LocalFrame -> list MHTMLArchive.SerializedResource)
    (boundary : WebString) (webFrame : WebLocalFrame) (useBinaryEncoding : bool)
    (webFrameToContentID : list (WebFrame * WebString)) : list ascii :=
  WebPageSerializer.generateMHTMLParts []
    (MHTMLArchive.generateMHTMLPart isTextMediaType)
    convertContentIDToURI serializeFrame
    boundary webFrame useBinaryEncoding webFrameToContentID.

(** The local [isHandledBySerializer] of [rewriteLink]. *)
Definition isHandledBySerializer (doc : Document) : bool :=
  isHTMLDocument doc || isXHTMLDocument doc || isImageDocument doc.

(** ** The calls of the part emitter *)

(** One call of [MHTMLArchive::generateMHTMLPart]: its arguments, the output
    buffer apart. *)
Record PartCall : Type := mkPartCall {
  call_boundary : WTF.String;
  call_contentID : WTF.String;
  call_policy : MHTMLArchive.EncodingPolicy;
  call_resource : MHTMLArchive.SerializedResource
}.

(** The part emitter that records its calls. *)
Definition recordCall (boundary contentID : WTF.String)
    (policy : MHTMLArchive.EncodingPolicy)
    (resource : MHTMLArchive.SerializedResource)
    (output : list PartCall) : list PartCall :=
  (output ++ [mkPartCall boundary contentID policy resource])%list.

(** The calls [generateMHTMLParts] makes of the part emitter, in order. *)
Definition partCalls {build : Build}
    (convertContentIDToURI : WTF.String -> KURL)
    (serializeFrame : Delegate -> LocalFrame -> list MHTMLArchive.SerializedResource)
    (boundary : WebString) (webFrame : WebLocalFrame) (useBinaryEncoding : bool)
    (webFrameToContentID : list (WebFrame * WebString)) : list PartCall :=
  WebPageSerializer.generateMHTMLParts [] recordCall
    convertContentIDToURI serializeFrame
    boundary webFrame useBinaryEncoding webFrameToContentID.

(** A part emitter run on recorded calls, from a given output buffer. *)
Definition replay {SharedBuffer : Type}
    (generateMHTMLPart :
       WTF.String -> WTF.String -> MHTMLArchive.EncodingPolicy ->
       MHTMLArchive.SerializedResource -> SharedBuffer -> SharedBuffer)
    (output : SharedBuffer) (calls : list PartCall) : SharedBuffer :=
  fold_left
    (fun output call =>
       generateMHTMLPart (call_boundary call) (call_contentID call)
         (call_policy call) (call_resource call) output)
    calls output.

(** ** The mark of the web *)

(** [StringBuilder]: the characters appended so far. *)
Module StringBuilder.

Definition builder : Type := string.

Definition empty : builder := EmptyString.

(** [append] of a character literal. *)
Definition appendLiteral (b : builder) (literal : string) : builder :=
  b +:+ literal.

(** [append] of a [String]: the null string appends nothing. *)
Definition append (b : builder) (s : WTF.String) : builder :=
  b +:+ WTF.characters s.

Definition toString (b : builder) : WTF.String := WTF.chars b.

End StringBuilder.

(** The line feed as a one-character string. *)
Definition newline : string := String (Ascii.ascii_of_nat 10) EmptyString.

Section MarkOfTheWeb.

(** A [WebURL], and [PageSerializer::markOfTheWebDeclaration], declared in
    core/page/PageSerializer.h. *)
Context {WebURL : Type}.
Variable markOfTheWebDeclaration : WebURL -> WTF.String.

Definition generateMarkOfTheWebDeclaration (url : WebURL) : WTF.String :=
  let builder := StringBuilder.empty in
  let builder := StringBuilder.appendLiteral builder (newline +:+ "<!-- ") in
  let builder := StringBuilder.append builder (markOfTheWebDeclaration url) in
  let builder := StringBuilder.appendLiteral builder (" -->" +:+ newline) in
  StringBuilder.toString builder.

End MarkOfTheWeb.

(** Whether [s] starts with the end of a comment, [-->]. *)
Definition startsWithCommentEnd (s : string) : bool :=
  match s with
  | String a (String b (String c _)) =>
      Ascii.eqb a "-" && Ascii.eqb b "-" && Ascii.eqb c ">"
  | _ => false
  end.

(** [hasCommentEnd s]: [-->] occurs in [s]. *)
Fixpoint hasCommentEnd (s : string) : bool :=
  match s with
  | EmptyString => false
  | String c rest => startsWithCommentEnd s || hasCommentEnd rest
  end.

(** What follows the three characters of [-->]. *)
Definition afterCommentEnd (s : string) : string :=
  match s with
  | String _ (String _ (String _ after)) => after
  | _ => EmptyString
  end.

(** Reading a comment after its opening: the text up to the first [-->] and
    what follows that [-->]; [None] when the comment is not closed. *)
Fixpoint readComment (s : string) : option (string * string) :=
  match s with
  | EmptyString => None
  | String c rest =>
      if startsWithCommentEnd s then Some (EmptyString, afterCommentEnd s)
      else
        match readComment rest with
        | Some (text, after) => Some (String c text, after)
        | None => None
        end
  end.

(** ** Example inputs *)

(** A page with a root document and an image, saved with boundary
    [BOUNDARY1]. *)
Definition exampleTable : list (WebFrame * WebString) :=
  [ (mkWebFrame 1%positive, WTF.chars "root@archive");
    (mkWebFrame 2%positive, WTF.chars "child@archive") ].

Definition exampleBatch : list MHTMLArchive.SerializedResource :=
  [ MHTMLArchive.mkSerializedResource "http://example.test/" "text/html" (Some "UTF-8")
      (MHTMLArchive.bytes "<html><img src=a.png></html>");
    MHTMLArchive.mkSerializedResource "http://example.test/a.png" "image/png" None
      (MHTMLArchive.bytes "PNG") ].

Definition exampleDocument : Document :=
  mkDocument true false false (WTF.chars "Title") (WTF.chars "text/html").

Definition exampleFrame : WebLocalFrame :=
  mkWebLocalFrame (mkLocalFrame 1%positive exampleDocument).

(** * Properties *)

(** ** The markup string builders *)

Lemma append_cons (c : ascii) (a b : string) :
  String c a +:+ b = String c (a +:+ b).
Proof. reflexivity. Qed.

Lemma append_assoc3 (a b c : string) : (a +:+ b) +:+ c = a +:+ b +:+ c.
Proof.
  induction a as [| x a IH]; [reflexivity |].
  rewrite !append_cons. f_equal. exact IH.
Qed.

Lemma readQuoted_app (a b : string) :
  hasQuote a = false ->
  readQuoted (a +:+ q +:+ b) = (a, b).
Proof.
  induction a as [| c a IH]; intros H.
  - reflexivity.
  - simpl in H. apply orb_false_iff in H as [Hc Ha].
    rewrite append_cons. simpl readQuoted.
    rewrite Hc, (IH Ha). reflexivity.
Qed.

(** C8. For every base target, [generateBaseTagDeclaration] returns the
    string [<base href=".">] when the base target is empty (null or of
    length 0), and otherwise [<base href="." target="T">] with [T] the
    characters of the base target. *)
Theorem generateBaseTagDeclaration_spec (baseTarget : WTF.String) :
  generateBaseTagDeclaration baseTarget =
    if WTF.isEmpty baseTarget
    then WTF.chars ("<base href=" +:+ q +:+ "." +:+ q +:+ ">")
    else WTF.chars ("<base href=" +:+ q +:+ "." +:+ q +:+ " target=" +:+ q
                    +:+ WTF.characters baseTarget +:+ q +:+ ">").
Proof.
  unfold generateBaseTagDeclaration.
  destruct (WTF.isEmpty baseTarget); reflexivity.
Qed.

(** C10. For every charset, [generateMetaCharsetDeclaration] returns the
    literal [<meta http-equiv="Content-Type" content="text/html; charset=],
    the charset as it is, and the literal [">].  Nothing is escaped: when the
    charset is [a"b] with no double quote in [a], the value of the [content]
    attribute, read up to its closing double quote, is
    [text/html; charset=a], and [b">] follows it outside the value. *)
Theorem generateMetaCharsetDeclaration_verbatim (charset : WTF.String) :
  generateMetaCharsetDeclaration charset =
    WTF.chars ("<meta http-equiv=" +:+ q +:+ "Content-Type" +:+ q +:+ " content=" +:+ q
               +:+ "text/html; charset=" +:+ WTF.characters charset +:+ q +:+ ">")
  /\ (forall a b : string,
        hasQuote a = false ->
        WTF.characters charset = a +:+ q +:+ b ->
        exists markup : string,
          generateMetaCharsetDeclaration charset =
            WTF.chars ("<meta http-equiv=" +:+ q +:+ "Content-Type" +:+ q
                       +:+ " content=" +:+ q +:+ markup)
          /\ readQuoted markup = ("text/html; charset=" +:+ a, b +:+ q +:+ ">")).
Proof.
  split.
  - reflexivity.
  - intros a b Ha Hc.
    exists ("text/html; charset=" +:+ WTF.characters charset +:+ q +:+ ">").
    split; [reflexivity |].
    rewrite Hc.
    change ("text/html; charset=" +:+ (a +:+ q +:+ b) +:+ q +:+ ">")
      with ("text/html; charset=" +:+ ((a +:+ q +:+ b) +:+ q +:+ ">")).
    rewrite (append_assoc3 a (q +:+ b) (q +:+ ">")).
    change ((q +:+ b) +:+ q +:+ ">") with (q +:+ (b +:+ q +:+ ">")).
    change ("text/html; charset=" +:+ a +:+ q +:+ b +:+ q +:+ ">")
      with (("text/html; charset=" +:+ a) +:+ q +:+ (b +:+ q +:+ ">")).
    apply readQuoted_app.
    simpl. exact Ha.
Qed.

(** The charset [x" onload="y] breaks out of the attribute value. *)
Lemma generateMetaCharsetDeclaration_verbatim_witness :
  exists markup : string,
    generateMetaCharsetDeclaration (WTF.chars ("x" +:+ q +:+ " onload=" +:+ q +:+ "y")) =
      WTF.chars ("<meta http-equiv=" +:+ q +:+ "Content-Type" +:+ q
                 +:+ " content=" +:+ q +:+ markup)
    /\ readQuoted markup =
         ("text/html; charset=x", " onload=" +:+ q +:+ "y" +:+ q +:+ ">").
Proof.
  exact (proj2 (generateMetaCharsetDeclaration_verbatim
                  (WTF.chars ("x" +:+ q +:+ " onload=" +:+ q +:+ "y")))
               "x" (" onload=" +:+ q +:+ "y") eq_refl eq_refl).
Defined.

(** ** The delegate *)

(** C6. [shouldIgnoreAttribute] returns true exactly when the local name of
    the attribute is [srcset], and false for every other attribute name. *)
Theorem shouldIgnoreAttribute_iff_srcset (attribute : Attribute) :
  (MHTMLPageSerializerDelegate.shouldIgnoreAttribute attribute = true
     <-> localName attribute = WTF.chars "srcset")
  /\ (MHTMLPageSerializerDelegate.shouldIgnoreAttribute attribute = false
     <-> localName attribute <> WTF.chars "srcset").
Proof.
  unfold MHTMLPageSerializerDelegate.shouldIgnoreAttribute,
    AtomicString_eq_QualifiedName, AtomicString_eqb.
  simpl.
  destruct (localName attribute) as [| s].
  - repeat split; intros; congruence.
  - destruct (String.eqb_spec s "srcset") as [-> | Hne].
    + repeat split; intros; congruence.
    + repeat split; intros; congruence.
Qed.

Section RewriteLinkProperties.

Import MHTMLPageSerializerDelegate.

Context {build : Build}.
Variable convertContentIDToURI : WTF.String -> KURL.
Variable frameToContentID : gmap Frame WTF.String.

Lemma HashMap_get_Some (m : gmap Frame WTF.String) frame contentID :
  m !! frame = Some contentID -> HashMap_get m frame = contentID.
Proof. unfold HashMap_get. now intros ->. Qed.

Lemma HashMap_get_None (m : gmap Frame WTF.String) frame :
  m !! frame = None -> HashMap_get m frame = WTF.null.
Proof. unfold HashMap_get. now intros ->. Qed.

Lemma rewriteLink_not_owner element link :
  isFrameOwnerElement element = false ->
  rewriteLink convertContentIDToURI frameToContentID element link
    = Returns (false, link).
Proof. unfold rewriteLink. now intros ->. Qed.

Lemma rewriteLink_no_frame element link :
  contentFrame element = None ->
  rewriteLink convertContentIDToURI frameToContentID element link
    = Returns (false, link).
Proof.
  unfold rewriteLink. intros ->.
  now destruct (negb (isFrameOwnerElement element)).
Qed.

Lemma frameElementBase_is_owner element :
  isHTMLFrameElementBase element = true -> isFrameOwnerElement element = true.
Proof.
  unfold isHTMLFrameElementBase, isFrameOwnerElement.
  now destruct (elementClass element).
Qed.

Lemma objectElement_is_owner element :
  isHTMLObjectElement element = true ->
  isFrameOwnerElement element = true /\ isHTMLFrameElementBase element = false.
Proof.
  unfold isHTMLObjectElement, isHTMLFrameElementBase, isFrameOwnerElement.
  now destruct (elementClass element).
Qed.

(** The call when the map gives the content frame a content id whose URI
    is valid: the assertion holds and the kind of element decides. *)
Lemma rewriteLink_valid element link frame contentID :
  contentFrame element = Some frame ->
  frameToContentID !! frame = Some contentID ->
  KURL_isValid (convertContentIDToURI contentID) = true ->
  rewriteLink convertContentIDToURI frameToContentID element link =
    if negb (isFrameOwnerElement element) then Returns (false, link)
    else if isHTMLFrameElementBase element then
      Returns (true, KURL_string (convertContentIDToURI contentID))
    else if isHTMLObjectElement element then
      match contentDocument element with
      | None => NullDereference
      | Some doc =>
          if isHTMLDocument doc || isXHTMLDocument doc || isImageDocument doc
          then Returns (true, KURL_string (convertContentIDToURI contentID))
          else Returns (false, link)
      end
    else Returns (false, link).
Proof.
  intros Hframe Hmap Hvalid. unfold rewriteLink.
  rewrite Hframe, (HashMap_get_Some _ _ _ Hmap), Hvalid.
  cbn [negb]. rewrite andb_false_r. reflexivity.
Qed.

(** An object element that owns a content frame and has no content
    document: the document is asked for its kind through a null pointer. *)
Lemma rewriteLink_object_without_document element link frame contentID :
  isHTMLObjectElement element = true ->
  contentFrame element = Some frame ->
  contentDocument element = None ->
  frameToContentID !! frame = Some contentID ->
  KURL_isValid (convertContentIDToURI contentID) = true ->
  rewriteLink convertContentIDToURI frameToContentID element link = NullDereference.
Proof.
  intros Hobj Hframe Hdoc Hmap Hvalid.
  rewrite (rewriteLink_valid _ _ _ _ Hframe Hmap Hvalid).
  destruct (objectElement_is_owner _ Hobj) as [Hown Hbase].
  now rewrite Hown, Hbase, Hobj, Hdoc.
Qed.

End RewriteLinkProperties.

(** C9. For a frame-owner element whose content frame is null,
    [rewriteLink] returns false and leaves the link as it was, whatever the
    frame-to-content-id map holds (and whatever the conversion of content
    ids does): the map is not consulted and no assertion fails. *)
Theorem rewriteLink_null_contentFrame {build : Build}
    (convertContentIDToURI : WTF.String -> KURL)
    (frameToContentID : gmap Frame WTF.String)
    (element : Element) (rewrittenLink : WTF.String) :
  isFrameOwnerElement element = true ->
  contentFrame element = None ->
  MHTMLPageSerializerDelegate.rewriteLink convertContentIDToURI frameToContentID
    element rewrittenLink = Returns (false, rewrittenLink).
Proof.
  intros _ Hframe. now apply rewriteLink_no_frame.
Qed.

Lemma rewriteLink_null_contentFrame_witness :
  MHTMLPageSerializerDelegate.rewriteLink (build := debugBuild)
    MHTMLParser.convertContentIDToURI ∅
    (mkElement HTMLIFrameElement None None) (WTF.chars "http://example.test/a")
  = Returns (false, WTF.chars "http://example.test/a").
Proof.
  apply (rewriteLink_null_contentFrame (build := debugBuild)
           MHTMLParser.convertContentIDToURI ∅
           (mkElement HTMLIFrameElement None None)); reflexivity.
Defined.

(** C2. What [rewriteLink] returns, by the kind of element.  An element that
    is not a frame owner, or owns no content frame, is left untouched.  For
    an element with content frame [frame], when the map gives [frame] a
    content id whose URI is valid: a frame or iframe element gets the string
    of that URI, whatever its document; an object element with a content
    document gets that string exactly when the document is an HTML, XHTML or
    image document, and is left untouched otherwise; every other frame owner
    is left untouched. *)
Theorem rewriteLink_by_element_kind {build : Build}
    (convertContentIDToURI : WTF.String -> KURL)
    (frameToContentID : gmap Frame WTF.String)
    (element : Element) (rewrittenLink : WTF.String) :
  let result :=
    MHTMLPageSerializerDelegate.rewriteLink convertContentIDToURI frameToContentID
      element rewrittenLink in
  (isFrameOwnerElement element = false -> result = Returns (false, rewrittenLink))
  /\ (contentFrame element = None -> result = Returns (false, rewrittenLink))
  /\ (forall frame contentID,
        contentFrame element = Some frame ->
        frameToContentID !! frame = Some contentID ->
        KURL_isValid (convertContentIDToURI contentID) = true ->
        let cid := KURL_string (convertContentIDToURI contentID) in
        (isHTMLFrameElementBase element = true -> result = Returns (true, cid))
        /\ (isHTMLObjectElement element = true ->
            forall doc, contentDocument element = Some doc ->
              (isHTMLDocument doc || isXHTMLDocument doc || isImageDocument doc = true
                 -> result = Returns (true, cid))
              /\ (isHTMLDocument doc || isXHTMLDocument doc || isImageDocument doc = false
                 -> result = Returns (false, rewrittenLink)))
        /\ (isHTMLFrameElementBase element = false ->
            isHTMLObjectElement element = false ->
            result = Returns (false, rewrittenLink))).
Proof.
  intros result. subst result.
  split; [apply rewriteLink_not_owner |].
  split; [apply rewriteLink_no_frame |].
  intros frame contentID Hframe Hmap Hvalid cid. subst cid.
  rewrite (rewriteLink_valid _ _ _ _ _ _ Hframe Hmap Hvalid).
  split; [| split].
  - intros Hbase. rewrite (frameElementBase_is_owner _ Hbase), Hbase. reflexivity.
  - intros Hobj doc Hdoc.
    destruct (objectElement_is_owner _ Hobj) as [Hown Hbase].
    rewrite Hown, Hbase, Hobj, Hdoc. simpl.
    split; intros ->; reflexivity.
  - intros Hbase Hobj. rewrite Hbase, Hobj.
    now destruct (negb (isFrameOwnerElement element)).
Qed.

Lemma rewriteLink_by_element_kind_witness :
  let m : gmap Frame WTF.String := <[2%positive := WTF.chars "child@archive"]> ∅ in
  let link := WTF.chars "child.html" in
  let imageDocument := mkDocument false false true WTF.null (WTF.chars "image/png") in
  let otherDocument := mkDocument false false false WTF.null (WTF.chars "application/pdf") in
  MHTMLPageSerializerDelegate.rewriteLink (build := debugBuild)
    MHTMLParser.convertContentIDToURI m
    (mkElement OtherElement None None) link = Returns (false, link)
  /\ MHTMLPageSerializerDelegate.rewriteLink (build := debugBuild)
    MHTMLParser.convertContentIDToURI m
       (mkElement HTMLIFrameElement (Some 2%positive) None) link
     = Returns (true, WTF.chars "cid:child@archive")
  /\ MHTMLPageSerializerDelegate.rewriteLink (build := debugBuild)
    MHTMLParser.convertContentIDToURI m
       (mkElement HTMLObjectElement (Some 2%positive) (Some imageDocument)) link
     = Returns (true, WTF.chars "cid:child@archive")
  /\ MHTMLPageSerializerDelegate.rewriteLink (build := debugBuild)
    MHTMLParser.convertContentIDToURI m
       (mkElement HTMLObjectElement (Some 2%positive) (Some otherDocument)) link
     = Returns (false, link)
  /\ MHTMLPageSerializerDelegate.rewriteLink (build := debugBuild)
    MHTMLParser.convertContentIDToURI m
       (mkElement OtherFrameOwner (Some 2%positive) None) link
     = Returns (false, link).
Proof.
  intros m link imageDocument otherDocument.
  assert (Hmap : m !! 2%positive = Some (WTF.chars "child@archive"))
    by (vm_compute; reflexivity).
  pose proof (fun element =>
    rewriteLink_by_element_kind (build := debugBuild)
      MHTMLParser.convertContentIDToURI m element link)
    as kind.
  cbv zeta in kind.
  split; [apply (kind (mkElement OtherElement None None)); reflexivity |].
  split.
  { destruct (kind (mkElement HTMLIFrameElement (Some 2%positive) None))
      as (_ & _ & H).
    destruct (H 2%positive (WTF.chars "child@archive") eq_refl Hmap eq_refl)
      as (Hbase & _ & _).
    apply Hbase. reflexivity. }
  split.
  { destruct (kind (mkElement HTMLObjectElement (Some 2%positive) (Some imageDocument)))
      as (_ & _ & H).
    destruct (H 2%positive (WTF.chars "child@archive") eq_refl Hmap eq_refl)
      as (_ & Hobject & _).
    apply (Hobject eq_refl imageDocument eq_refl). reflexivity. }
  split.
  { destruct (kind (mkElement HTMLObjectElement (Some 2%positive) (Some otherDocument)))
      as (_ & _ & H).
    destruct (H 2%positive (WTF.chars "child@archive") eq_refl Hmap eq_refl)
      as (_ & Hobject & _).
    apply (Hobject eq_refl otherDocument eq_refl). reflexivity. }
  destruct (kind (mkElement OtherFrameOwner (Some 2%positive) None))
    as (_ & _ & H).
  destruct (H 2%positive (WTF.chars "child@archive") eq_refl Hmap eq_refl)
    as (_ & _ & Hother).
  apply Hother; reflexivity.
Defined.

(** C3. The code on a missing entry.  For a frame or iframe element whose
    content frame has no entry in the map, the lookup gives the null string.
    Where [ASSERT] is compiled in and the null string does not convert to a
    valid URI, the call ends at the assertion.  Where [ASSERT] is compiled
    out nothing else guards the miss: the call returns true, and the link is
    the string of the URI converted from the null string. *)
Theorem rewriteLink_missing_entry_unguarded {build : Build}
    (convertContentIDToURI : WTF.String -> KURL)
    (frameToContentID : gmap Frame WTF.String)
    (element : Element) (frame : Frame) (rewrittenLink : WTF.String) :
  isHTMLFrameElementBase element = true ->
  contentFrame element = Some frame ->
  frameToContentID !! frame = None ->
  MHTMLPageSerializerDelegate.rewriteLink convertContentIDToURI
    frameToContentID element rewrittenLink
  = if assertEnabled && negb (KURL_isValid (convertContentIDToURI WTF.null))
    then AssertionFailure
    else Returns (true, KURL_string (convertContentIDToURI WTF.null)).
Proof.
  intros Hbase Hframe Hmap.
  unfold MHTMLPageSerializerDelegate.rewriteLink.
  rewrite (frameElementBase_is_owner _ Hbase), Hframe, (HashMap_get_None _ _ Hmap),
    Hbase.
  reflexivity.
Qed.

(** An iframe whose content frame the map does not know: with [ASSERT]
    compiled out the call returns true with the null string as the link;
    with [ASSERT] compiled in it ends at the assertion. *)
Lemma rewriteLink_missing_entry_unguarded_witness :
  MHTMLPageSerializerDelegate.rewriteLink (build := releaseBuild)
    MHTMLParser.convertContentIDToURI
    (<[1%positive := WTF.chars "root@archive"]> ∅)
    (mkElement HTMLIFrameElement (Some 2%positive) None)
    (WTF.chars "child.html")
  = Returns (true, WTF.null)
  /\ MHTMLPageSerializerDelegate.rewriteLink (build := debugBuild)
       MHTMLParser.convertContentIDToURI
       (<[1%positive := WTF.chars "root@archive"]> ∅)
       (mkElement HTMLIFrameElement (Some 2%positive) None)
       (WTF.chars "child.html")
     = AssertionFailure.
Proof.
  split.
  - rewrite (rewriteLink_missing_entry_unguarded (build := releaseBuild)
               MHTMLParser.convertContentIDToURI
               (<[1%positive := WTF.chars "root@archive"]> ∅)
               (mkElement HTMLIFrameElement (Some 2%positive) None) 2%positive
               (WTF.chars "child.html") eq_refl eq_refl);
      [reflexivity | vm_compute; reflexivity].
  - rewrite (rewriteLink_missing_entry_unguarded (build := debugBuild)
               MHTMLParser.convertContentIDToURI
               (<[1%positive := WTF.chars "root@archive"]> ∅)
               (mkElement HTMLIFrameElement (Some 2%positive) None) 2%positive
               (WTF.chars "child.html") eq_refl eq_refl);
      [reflexivity | vm_compute; reflexivity].
Defined.

(** C5. When the map gives the content frame of an element the content id
    [abc]: a link returned by [rewriteLink] is exactly [cid:abc]; a link is
    returned for a frame or iframe element and for an object element with an
    HTML, XHTML or image document; and [cid:abc] is a valid URI (the
    assertion on the URI holds, and the string is a syntactically valid
    URI). *)
Theorem rewriteLink_cid_abc {build : Build}
    (frameToContentID : gmap Frame WTF.String)
    (element : Element) (frame : Frame) (rewrittenLink : WTF.String) :
  contentFrame element = Some frame ->
  frameToContentID !! frame = Some (WTF.chars "abc") ->
  let result :=
    MHTMLPageSerializerDelegate.rewriteLink MHTMLParser.convertContentIDToURI
      frameToContentID element rewrittenLink in
  (forall link, result = Returns (true, link) -> link = WTF.chars "cid:abc")
  /\ (ownsEmbeddedContent element -> result = Returns (true, WTF.chars "cid:abc"))
  /\ KURL_isValid (MHTMLParser.convertContentIDToURI (WTF.chars "abc")) = true
  /\ MHTMLParser.isValidURI "cid:abc" = true.
Proof.
  intros Hframe Hmap result. subst result.
  rewrite (rewriteLink_valid MHTMLParser.convertContentIDToURI _ _ _ _ _
             Hframe Hmap eq_refl).
  change (KURL_string (MHTMLParser.convertContentIDToURI (WTF.chars "abc")))
    with (WTF.chars "cid:abc").
  split; [| split; [| split; reflexivity]].
  - intros link.
    destruct (negb (isFrameOwnerElement element)); [congruence |].
    destruct (isHTMLFrameElementBase element); [congruence |].
    destruct (isHTMLObjectElement element); [| congruence].
    destruct (contentDocument element) as [doc |]; [| congruence].
    destruct (isHTMLDocument doc || isXHTMLDocument doc || isImageDocument doc);
      congruence.
  - intros [Hb | (Ho & doc & Hdoc & Hkind)].
    + rewrite (frameElementBase_is_owner _ Hb), Hb. reflexivity.
    + destruct (objectElement_is_owner _ Ho) as [Hown Hbase].
      rewrite Hown, Hbase, Ho, Hdoc, Hkind. reflexivity.
Qed.

Lemma rewriteLink_cid_abc_witness :
  MHTMLPageSerializerDelegate.rewriteLink (build := releaseBuild)
    MHTMLParser.convertContentIDToURI
    (<[7%positive := WTF.chars "abc"]> ∅)
    (mkElement HTMLIFrameElement (Some 7%positive) None)
    (WTF.chars "child.html")
  = Returns (true, WTF.chars "cid:abc").
Proof.
  assert (Hmap : (<[7%positive := WTF.chars "abc"]> ∅ : gmap Frame WTF.String)
                   !! 7%positive = Some (WTF.chars "abc"))
    by (vm_compute; reflexivity).
  apply (proj1 (proj2 (rewriteLink_cid_abc (build := releaseBuild)
           (<[7%positive := WTF.chars "abc"]> ∅)
           (mkElement HTMLIFrameElement (Some 7%positive) None) 7%positive
           (WTF.chars "child.html") eq_refl Hmap))).
  left. reflexivity.
Defined.

(** ** The transfer encodings *)

Module EncodingFacts.

Import MHTMLArchive.
Local Open Scope list_scope.

(** Induction on lists by steps of three elements. *)
Lemma list_ind3 {A : Type} (P : list A -> Prop) :
  P [] ->
  (forall a, P [a]) ->
  (forall a b, P [a; b]) ->
  (forall a b c l, P l -> P (a :: b :: c :: l)) ->
  forall l, P l.
Proof.
  intros H0 H1 H2 H3.
  fix IH 1.
  intros [| a [| b [| c l]]].
  - exact H0.
  - apply H1.
  - apply H2.
  - apply H3, IH.
Qed.

(** *** Base64 *)

Lemma base64Value_base64Char (s : Sextet) : base64Value (base64Char s) = Some s.
Proof.
  destruct s as [[[[[b5 b4] b3] b2] b1] b0].
  destruct b5, b4, b3, b2, b1, b0; reflexivity.
Qed.

Lemma base64Char_not_padding (s : Sextet) : Ascii.eqb (base64Char s) padding = false.
Proof.
  destruct s as [[[[[b5 b4] b3] b2] b1] b0].
  destruct b5, b4, b3, b2, b1, b0; reflexivity.
Qed.

Lemma base64Char_not_lineBreak (s : Sextet) : isLineBreakChar (base64Char s) = false.
Proof.
  destruct s as [[[[[b5 b4] b3] b2] b1] b0].
  destruct b5, b4, b3, b2, b1, b0; reflexivity.
Qed.

Lemma padding_not_lineBreak : isLineBreakChar padding = false.
Proof. reflexivity. Qed.

(** One step of the decoder on a group without padding. *)
Lemma base64Decode_group c1 c2 c3 c4 rest s1 s2 s3 s4 :
  base64Value c1 = Some s1 -> base64Value c2 = Some s2 ->
  base64Value c3 = Some s3 -> base64Value c4 = Some s4 ->
  Ascii.eqb c4 padding = false ->
  base64Decode (c1 :: c2 :: c3 :: c4 :: rest) =
    match base64Decode rest with
    | Some tail =>
        Some (decodeFirst s1 s2 :: decodeSecond s2 s3 :: decodeThird s3 s4 :: tail)
    | None => None
    end.
Proof.
  intros H1 H2 H3 H4 Hp.
  cbn [base64Decode]. rewrite H1, H2, H3, H4, Hp. reflexivity.
Qed.

Lemma base64Decode_encode3 a b c rest :
  base64Decode (encode3 a b c ++ rest) =
    match base64Decode rest with
    | Some tail => Some (a :: b :: c :: tail)
    | None => None
    end.
Proof.
  destruct a as [a0 a1 a2 a3 a4 a5 a6 a7].
  destruct b as [b0 b1 b2 b3 b4 b5 b6 b7].
  destruct c as [c0 c1 c2 c3 c4 c5 c6 c7].
  unfold encode3. cbn [app].
  erewrite base64Decode_group;
    [| apply base64Value_base64Char ..| apply base64Char_not_padding].
  reflexivity.
Qed.

Lemma base64Decode_encode2 a b : base64Decode (encode2 a b) = Some [a; b].
Proof.
  destruct a as [a0 a1 a2 a3 a4 a5 a6 a7].
  destruct b as [b0 b1 b2 b3 b4 b5 b6 b7].
  unfold encode2. cbn [base64Decode].
  rewrite !base64Value_base64Char, base64Char_not_padding.
  reflexivity.
Qed.

Lemma base64Decode_encode1 a : base64Decode (encode1 a) = Some [a].
Proof.
  destruct a as [a0 a1 a2 a3 a4 a5 a6 a7].
  unfold encode1. cbn [base64Decode].
  rewrite !base64Value_base64Char.
  reflexivity.
Qed.

Lemma base64Encode_step a b c rest :
  base64Encode (a :: b :: c :: rest) = encode3 a b c ++ base64Encode rest.
Proof. reflexivity. Qed.

(** Decoding undoes encoding, before lines are wrapped. *)
Lemma base64Decode_base64Encode (data : list ascii) :
  base64Decode (base64Encode data) = Some data.
Proof.
  induction data as [| a | a b | a b c rest IH] using list_ind3.
  - reflexivity.
  - apply base64Decode_encode1.
  - apply base64Decode_encode2.
  - rewrite base64Encode_step, base64Decode_encode3, IH. reflexivity.
Qed.

Lemma encode3_noLineBreak a b c : noLineBreak (encode3 a b c).
Proof.
  destruct a, b, c. unfold encode3.
  repeat constructor; apply base64Char_not_lineBreak.
Qed.

Lemma base64Encode_noLineBreak (data : list ascii) : noLineBreak (base64Encode data).
Proof.
  induction data as [| a | a b | a b c rest IH] using list_ind3.
  - constructor.
  - destruct a. unfold base64Encode, encode1.
    repeat constructor; first [apply base64Char_not_lineBreak | reflexivity].
  - destruct a, b. unfold base64Encode, encode2.
    repeat constructor; first [apply base64Char_not_lineBreak | reflexivity].
  - rewrite base64Encode_step. apply Forall_app. split; [apply encode3_noLineBreak | exact IH].
Qed.

(** Skipping the line breaks of wrapped lines gives the unwrapped run back. *)
Lemma filter_wrapLines (col : nat) (l : list ascii) :
  noLineBreak l ->
  List.filter (fun c => negb (isLineBreakChar c)) (wrapLines col l) = l.
Proof.
  intros H. revert col.
  induction H as [| c l Hc Hl IH]; intros col.
  - reflexivity.
  - cbn [wrapLines].
    destruct (Nat.eqb col maximumLineLength).
    + cbn [List.filter].
      change (negb (isLineBreakChar CR)) with false.
      change (negb (isLineBreakChar LF)) with false.
      cbn iota. rewrite Hc. cbn [negb]. now rewrite IH.
    + cbn [List.filter]. rewrite Hc. cbn [negb]. now rewrite IH.
Qed.

Lemma base64DecodeBody_base64EncodeBody (data : list ascii) :
  base64DecodeBody (base64EncodeBody data) = Some data.
Proof.
  unfold base64DecodeBody, base64EncodeBody.
  rewrite filter_wrapLines by apply base64Encode_noLineBreak.
  apply base64Decode_base64Encode.
Qed.

Example base64Encode_Man : base64Encode (bytes "Man") = bytes "TWFu".
Proof. reflexivity. Qed.

Example base64Encode_Ma : base64Encode (bytes "Ma") = bytes "TWE=".
Proof. reflexivity. Qed.

Example base64Encode_M : base64Encode (bytes "M") = bytes "TQ==".
Proof. reflexivity. Qed.

Example base64EncodeBody_hello :
  base64EncodeBody (bytes "hello") = bytes "aGVsbG8=" ++ CRLF.
Proof. reflexivity. Qed.

(** *** Quoted-printable *)

Example quotedPrintableEncode_equals :
  quotedPrintableEncode (bytes "a=b c ") = bytes "a=3Db c=20".
Proof. reflexivity. Qed.

Example quotedPrintableEncode_lineBreak :
  quotedPrintableEncode [CR; LF] = bytes "=0D=0A".
Proof. reflexivity. Qed.

Lemma hexValue_hexDigit (n : Nibble) : hexValue (hexDigit n) = Some n.
Proof.
  destruct n as [[[b3 b2] b1] b0].
  destruct b3, b2, b1, b0; reflexivity.
Qed.

Lemma hexDigit_not_CR (n : Nibble) : Ascii.eqb (hexDigit n) CR = false.
Proof.
  destruct n as [[[b3 b2] b1] b0].
  destruct b3, b2, b1, b0; reflexivity.
Qed.

Lemma hexDigit_not_lineBreak (n : Nibble) : isLineBreakChar (hexDigit n) = false.
Proof.
  destruct n as [[[b3 b2] b1] b0].
  destruct b3, b2, b1, b0; reflexivity.
Qed.

Lemma isLiteral_not_padding c isLast :
  isLiteral c isLast = true -> Ascii.eqb c padding = false.
Proof.
  destruct (Ascii.eqb_spec c padding) as [-> | _]; [| reflexivity].
  destruct isLast; discriminate.
Qed.

Lemma isLiteral_not_lineBreak c isLast :
  isLiteral c isLast = true -> isLineBreakChar c = false.
Proof.
  unfold isLineBreakChar.
  destruct (Ascii.eqb_spec c CR) as [-> | _]; [destruct isLast; discriminate |].
  destruct (Ascii.eqb_spec c LF) as [-> | _]; [destruct isLast; discriminate |].
  reflexivity.
Qed.

Lemma quotedPrintableDecode_escapeByte c rest :
  quotedPrintableDecode (escapeByte c ++ rest) =
    match quotedPrintableDecode rest with
    | Some tail => Some (c :: tail)
    | None => None
    end.
Proof.
  destruct c as [b0 b1 b2 b3 b4 b5 b6 b7].
  unfold escapeByte. cbn [app quotedPrintableDecode].
  change (Ascii.eqb padding padding) with true. cbn iota.
  rewrite hexDigit_not_CR, !hexValue_hexDigit. reflexivity.
Qed.

Lemma quotedPrintableDecode_literal c isLast rest :
  isLiteral c isLast = true ->
  quotedPrintableDecode (c :: rest) =
    match quotedPrintableDecode rest with
    | Some tail => Some (c :: tail)
    | None => None
    end.
Proof.
  intros H. cbn [quotedPrintableDecode].
  rewrite (isLiteral_not_padding _ _ H). reflexivity.
Qed.

Lemma quotedPrintableDecode_encodedByte c isLast rest :
  quotedPrintableDecode (encodedByte c isLast ++ rest) =
    match quotedPrintableDecode rest with
    | Some tail => Some (c :: tail)
    | None => None
    end.
Proof.
  unfold encodedByte. destruct (isLiteral c isLast) eqn:E.
  - apply (quotedPrintableDecode_literal c isLast rest E).
  - apply quotedPrintableDecode_escapeByte.
Qed.

Lemma quotedPrintableDecode_softBreak rest :
  quotedPrintableDecode (padding :: CR :: LF :: rest) = quotedPrintableDecode rest.
Proof. reflexivity. Qed.

Lemma quotedPrintableEncodeFrom_cons col c rest :
  quotedPrintableEncodeFrom col (c :: rest) =
    let token := encodedByte c (match rest with [] => true | _ :: _ => false end) in
    if Nat.ltb (maximumLineLength - 1) (col + length token) then
      padding :: CR :: LF :: token ++ quotedPrintableEncodeFrom (length token) rest
    else token ++ quotedPrintableEncodeFrom (col + length token) rest.
Proof. reflexivity. Qed.

(** Decoding undoes encoding, from any column. *)
Lemma quotedPrintableDecode_encodeFrom (data : list ascii) :
  forall col, quotedPrintableDecode (quotedPrintableEncodeFrom col data) = Some data.
Proof.
  induction data as [| c rest IH]; intros col.
  - reflexivity.
  - rewrite quotedPrintableEncodeFrom_cons. cbv zeta.
    destruct (Nat.ltb _ _).
    + rewrite quotedPrintableDecode_softBreak, quotedPrintableDecode_encodedByte, IH.
      reflexivity.
    + rewrite quotedPrintableDecode_encodedByte, IH. reflexivity.
Qed.

Lemma encodedByte_noLineBreak c isLast : noLineBreak (encodedByte c isLast).
Proof.
  unfold encodedByte. destruct (isLiteral c isLast) eqn:E.
  - repeat constructor. apply (isLiteral_not_lineBreak _ _ E).
  - destruct c. unfold escapeByte.
    repeat constructor; first [apply hexDigit_not_lineBreak | reflexivity].
Qed.

Lemma encodedByte_length c isLast : 1 <= length (encodedByte c isLast) <= 3.
Proof.
  unfold encodedByte. destruct (isLiteral c isLast).
  - simpl. lia.
  - destruct c. simpl. lia.
Qed.

(** *** Lines *)

Lemma splitLines_unfold (c c2 : ascii) (rest2 : list ascii) :
  splitLines (c :: c2 :: rest2) =
    if Ascii.eqb c CR && Ascii.eqb c2 LF then [] :: splitLines rest2
    else match splitLines (c2 :: rest2) with
         | [] => [[c]]
         | line :: lines => (c :: line) :: lines
         end.
Proof. reflexivity. Qed.

Lemma splitLines_nonempty (l : list ascii) : splitLines l <> [].
Proof.
  destruct l as [| c [| c2 rest]]; [easy | easy |].
  rewrite splitLines_unfold.
  destruct (Ascii.eqb c CR && Ascii.eqb c2 LF); [easy |].
  destruct (splitLines (c2 :: rest)); easy.
Qed.

Lemma splitLines_break (rest : list ascii) :
  splitLines (CR :: LF :: rest) = [] :: splitLines rest.
Proof. reflexivity. Qed.

(** A character that is not a line-break character joins the first line of
    what follows. *)
Lemma splitLines_cons (c : ascii) (rest : list ascii) :
  isLineBreakChar c = false ->
  exists line lines,
    splitLines rest = line :: lines /\ splitLines (c :: rest) = (c :: line) :: lines.
Proof.
  intros Hc.
  assert (Hcr : Ascii.eqb c CR = false).
  { unfold isLineBreakChar in Hc. now apply orb_false_iff in Hc as [? _]. }
  destruct rest as [| c2 rest2].
  - exists [], []. split; reflexivity.
  - destruct (splitLines (c2 :: rest2)) as [| line lines] eqn:E.
    + now apply splitLines_nonempty in E.
    + exists line, lines. split; [reflexivity |].
      rewrite splitLines_unfold, Hcr, E. reflexivity.
Qed.

Lemma splitLines_app (token rest : list ascii) :
  noLineBreak token ->
  exists line lines,
    splitLines rest = line :: lines
    /\ splitLines (token ++ rest) = (token ++ line) :: lines.
Proof.
  induction 1 as [| c token Hc Htoken IH].
  - destruct (splitLines rest) as [| line lines] eqn:E.
    + now apply splitLines_nonempty in E.
    + exists line, lines. split; [reflexivity | exact E].
  - destruct IH as (line & lines & Hrest & Happ).
    destruct (splitLines_cons c (token ++ rest) Hc) as (line' & lines' & H1 & H2).
    rewrite Happ in H1. injection H1 as <- <-.
    exists line, lines. split; [exact Hrest | exact H2].
Qed.

(** The lines of wrapped text: the first continues a line of [col]
    characters. *)
Lemma wrapLines_lines (l : list ascii) :
  noLineBreak l ->
  forall col, col <= maximumLineLength ->
  exists line lines,
    splitLines (wrapLines col l) = line :: lines
    /\ col + length line <= maximumLineLength
    /\ Forall (fun line => length line <= maximumLineLength) lines.
Proof.
  induction 1 as [| c l Hc Hl IH]; intros col Hcol.
  - exists [], [[]]. split; [reflexivity |].
    split; [simpl; lia | repeat constructor; simpl; lia].
  - cbn [wrapLines].
    destruct (Nat.eqb_spec col maximumLineLength) as [-> | Hne];
      unfold maximumLineLength in *.
    + destruct (IH 1) as (line & lines & Hsplit & Hlen & Hall); [lia |].
      destruct (splitLines_cons c (wrapLines 1 l) Hc) as (line' & lines' & H1 & H2).
      rewrite Hsplit in H1. injection H1 as <- <-.
      exists [], ((c :: line) :: lines).
      split; [rewrite splitLines_break, H2; reflexivity |].
      split; [simpl; lia |].
      constructor; [simpl; lia | exact Hall].
    + destruct (IH (S col)) as (line & lines & Hsplit & Hlen & Hall); [lia |].
      destruct (splitLines_cons c (wrapLines (S col) l) Hc) as (line' & lines' & H1 & H2).
      rewrite Hsplit in H1. injection H1 as <- <-.
      exists (c :: line), lines.
      split; [exact H2 |]. split; [simpl; lia | exact Hall].
Qed.

Lemma base64EncodeBody_linesWithinLimit (data : list ascii) :
  linesWithinLimit (base64EncodeBody data).
Proof.
  unfold linesWithinLimit, base64EncodeBody.
  destruct (wrapLines_lines (base64Encode data) (base64Encode_noLineBreak data) 0)
    as (line & lines & -> & Hlen & Hall).
  { unfold maximumLineLength. lia. }
  constructor; [lia | exact Hall].
Qed.

(** The lines of quoted-printable text: the line being written has room for
    the closing [=] of a soft line break. *)
Lemma quotedPrintableEncodeFrom_lines (data : list ascii) :
  forall col, col <= maximumLineLength - 1 ->
  exists line lines,
    splitLines (quotedPrintableEncodeFrom col data) = line :: lines
    /\ col + length line <= maximumLineLength
    /\ Forall (fun line => length line <= maximumLineLength) lines.
Proof.
  unfold maximumLineLength.
  induction data as [| c rest IH]; intros col Hcol.
  - exists [], []. split; [reflexivity |]. split; [simpl; lia | constructor].
  - rewrite quotedPrintableEncodeFrom_cons. cbv zeta.
    set (token := encodedByte c _).
    pose proof (encodedByte_length c (match rest with [] => true | _ :: _ => false end))
      as Htok.
    pose proof (encodedByte_noLineBreak c (match rest with [] => true | _ :: _ => false end))
      as Hnb.
    fold token in Htok, Hnb.
    unfold maximumLineLength.
    destruct (Nat.ltb_spec (76 - 1) (col + length token)) as [Hbreak | Hfit].
    + destruct (IH (length token)) as (line & lines & Hsplit & Hlen & Hall); [lia |].
      destruct (splitLines_app token (quotedPrintableEncodeFrom (length token) rest) Hnb)
        as (line' & lines' & H1 & H2).
      rewrite Hsplit in H1. injection H1 as <- <-.
      destruct (splitLines_cons padding
                  (CR :: LF :: token ++ quotedPrintableEncodeFrom (length token) rest)
                  padding_not_lineBreak) as (l0 & ls0 & H3 & H4).
      rewrite splitLines_break, H2 in H3. injection H3 as <- <-.
      exists [padding], ((token ++ line) :: lines).
      split; [exact H4 |]. split; [simpl; lia |].
      constructor; [rewrite length_app; lia | exact Hall].
    + destruct (IH (col + length token)) as (line & lines & Hsplit & Hlen & Hall); [lia |].
      destruct (splitLines_app token
                  (quotedPrintableEncodeFrom (col + length token) rest) Hnb)
        as (line' & lines' & H1 & H2).
      rewrite Hsplit in H1. injection H1 as <- <-.
      exists (token ++ line), lines.
      split; [exact H2 |]. split; [rewrite length_app; lia | exact Hall].
Qed.

Lemma quotedPrintableEncode_linesWithinLimit (data : list ascii) :
  linesWithinLimit (quotedPrintableEncode data).
Proof.
  unfold linesWithinLimit, quotedPrintableEncode.
  destruct (quotedPrintableEncodeFrom_lines data 0) as (line & lines & -> & Hlen & Hall).
  { unfold maximumLineLength. lia. }
  constructor; [lia | exact Hall].
Qed.

End EncodingFacts.

(** C4. For every media type, under the default and the forced-binary
    policy, and for every byte sequence, decoding the body written under the
    selected transfer encoding gives the bytes back; and every line of a
    quoted-printable or base64 body has at most 76 characters. *)
Theorem transfer_encoding_round_trip
    (isTextMediaType : string -> bool) (mediaType : string)
    (policy : MHTMLArchive.EncodingPolicy) (data : list ascii) :
  MHTMLArchive.decodeBody
    (MHTMLArchive.selectEncoding isTextMediaType mediaType policy)
    (MHTMLArchive.encodeBody
       (MHTMLArchive.selectEncoding isTextMediaType mediaType policy) data)
    = Some data
  /\ Forall (fun line => length line <= 76)
       (MHTMLArchive.splitLines
          (MHTMLArchive.encodeBody MHTMLArchive.QuotedPrintable data))
  /\ Forall (fun line => length line <= 76)
       (MHTMLArchive.splitLines
          (MHTMLArchive.encodeBody MHTMLArchive.Base64 data)).
Proof.
  split; [| split].
  - unfold MHTMLArchive.selectEncoding.
    destruct policy; [destruct (isTextMediaType mediaType) |].
    + apply EncodingFacts.quotedPrintableDecode_encodeFrom.
    + apply EncodingFacts.base64DecodeBody_base64EncodeBody.
    + reflexivity.
  - apply EncodingFacts.quotedPrintableEncode_linesWithinLimit.
  - apply EncodingFacts.base64EncodeBody_linesWithinLimit.
Qed.

(** ** The frame-to-content-id map *)

Lemma createFrameToContentIDMap_from (pairs : list (WebFrame * WebString)) :
  forall (m : gmap Frame WTF.String) (frame : Frame),
  fold_left
    (fun result it => HashMap_add (toImplBase_frame (fst it)) (snd it) result)
    pairs m !! frame
  = match m !! frame with
    | Some contentID => Some contentID
    | None => firstContentID frame pairs
    end.
Proof.
  induction pairs as [| it rest IH]; intros m frame.
  - cbn. now destruct (m !! frame).
  - cbn [fold_left firstContentID]. rewrite IH. cbv beta.
    set (key := toImplBase_frame (fst it)).
    unfold HashMap_add.
    destruct (m !! key) as [present |] eqn:Hkey.
    + destruct (m !! frame) as [contentID |] eqn:Hframe; [reflexivity |].
      destruct (Pos.eqb_spec key frame) as [Heq | _]; [congruence | reflexivity].
    + destruct (Pos.eqb_spec key frame) as [<- | Hne].
      * now rewrite lookup_insert_eq, Hkey.
      * now rewrite lookup_insert_ne.
Qed.

(** The map gives a frame the content id of the first pair that names it. *)
Lemma createFrameToContentIDMap_lookup (pairs : list (WebFrame * WebString))
    (frame : Frame) :
  createFrameToContentIDMap pairs !! frame = firstContentID frame pairs.
Proof.
  unfold createFrameToContentIDMap.
  now rewrite (createFrameToContentIDMap_from pairs ∅ frame), lookup_empty.
Qed.

(** ** Part emission *)

Section PartEmission.

Import MHTMLArchive.

(** The part written for a resource by [MHTMLArchive::generateMHTMLPart]. *)
Variable partOf :
  WTF.String -> WTF.String -> EncodingPolicy -> SerializedResource -> MIMEPart.

(** After the first resource every part is passed the null content id. *)
Lemma encodeResources_rest boundary m frame policy resources
    (output : list MIMEPart) :
  WebPageSerializer.encodeResources (recordPart partOf)
    boundary m frame policy false resources output
  = (output ++ map (partOf boundary WTF.null policy) resources)%list.
Proof.
  revert output.
  induction resources as [| resource rest IH]; intros output.
  - cbn. now rewrite app_nil_r.
  - cbn [WebPageSerializer.encodeResources map]. rewrite IH.
    unfold recordPart. now rewrite <- app_assoc.
Qed.

(** The parts of a batch: the first is passed what the map gives for the
    frame, the others the null content id. *)
Lemma encodeResources_first boundary m frame policy resources :
  WebPageSerializer.encodeResources (recordPart partOf)
    boundary m frame policy true resources []
  = match resources with
    | [] => []
    | resource :: rest =>
        partOf boundary (HashMap_get m (lf_frame frame)) policy resource
        :: map (partOf boundary WTF.null policy) rest
    end.
Proof.
  destruct resources as [| resource rest]; [reflexivity |].
  cbn [WebPageSerializer.encodeResources]. now rewrite encodeResources_rest.
Qed.

End PartEmission.

(** The bytes of a batch are the bytes of its parts, in order. *)
Lemma encodeResources_bytes isTextMediaType boundary m frame policy resources :
  forall first (parts : list MHTMLArchive.MIMEPart),
  WebPageSerializer.encodeResources (MHTMLArchive.generateMHTMLPart isTextMediaType)
    boundary m frame policy first resources
    (concat (map MHTMLArchive.serializePart parts))
  = concat (map MHTMLArchive.serializePart
      (WebPageSerializer.encodeResources
         (recordPart (MHTMLArchive.partOf isTextMediaType))
         boundary m frame policy first resources parts)).
Proof.
  induction resources as [| resource rest IH]; intros first parts.
  - reflexivity.
  - cbn [WebPageSerializer.encodeResources].
    rewrite <- IH. f_equal.
    unfold MHTMLArchive.generateMHTMLPart, recordPart.
    rewrite map_app, concat_app. cbn [map concat]. now rewrite app_nil_r.
Qed.

(** The bytes returned by [generateMHTMLParts] are the bytes of the emitted
    parts, in order. *)
Lemma emittedBytes_emittedParts {build : Build}
    isTextMediaType convertContentIDToURI serializeFrame
    boundary webFrame useBinaryEncoding webFrameToContentID :
  emittedBytes isTextMediaType convertContentIDToURI serializeFrame
    boundary webFrame useBinaryEncoding webFrameToContentID
  = concat (map MHTMLArchive.serializePart
      (emittedParts (MHTMLArchive.partOf isTextMediaType)
         convertContentIDToURI serializeFrame
         boundary webFrame useBinaryEncoding webFrameToContentID)).
Proof.
  unfold emittedBytes, emittedParts, WebPageSerializer.generateMHTMLParts.
  apply (encodeResources_bytes isTextMediaType _ _ _ _ _ true []).
Qed.

(** The part emitter of the archive writes a [Content-ID] exactly when it is
    passed a content id that is not empty. *)
Lemma partOf_contentID isTextMediaType boundary contentID policy resource :
  MHTMLArchive.part_contentID
    (MHTMLArchive.partOf isTextMediaType boundary contentID policy resource)
  = if WTF.isEmpty contentID then None else Some (WTF.characters contentID).
Proof. reflexivity. Qed.

(** C1. For every batch and every part emitter that writes a [Content-ID]
    exactly when it is passed a content id that is not empty: when the map
    built from the caller's pairs gives the frame a content id that is not
    empty, there is one part per resource, the part at index [i] carries a
    [Content-ID] if and only if [i] is 0, the [Content-ID] of the first part
    is exactly the content id the map gives for the frame, and every part is
    the part of its resource, passed that content id at index 0 and the null
    content id at every other index. *)
Theorem generateMHTMLParts_contentID {build : Build}
    (partOf : WTF.String -> WTF.String -> MHTMLArchive.EncodingPolicy ->
              MHTMLArchive.SerializedResource -> MHTMLArchive.MIMEPart)
    (convertContentIDToURI : WTF.String -> KURL)
    (serializeFrame : Delegate -> LocalFrame -> list MHTMLArchive.SerializedResource)
    (boundary : WebString) (webFrame : WebLocalFrame) (useBinaryEncoding : bool)
    (webFrameToContentID : list (WebFrame * WebString))
    (contentID : WTF.String) :
  let frame := toWebLocalFrameImpl_frame webFrame in
  let frameToContentID := createFrameToContentIDMap webFrameToContentID in
  let policy :=
    if useBinaryEncoding then MHTMLArchive.UseBinaryEncoding
    else MHTMLArchive.UseDefaultEncoding in
  let resources :=
    serializeFrame
      (WebPageSerializer.delegateOf convertContentIDToURI frameToContentID) frame in
  let parts :=
    emittedParts partOf convertContentIDToURI serializeFrame
      boundary webFrame useBinaryEncoding webFrameToContentID in
  (forall b c p r,
     MHTMLArchive.part_contentID (partOf b c p r)
     = if WTF.isEmpty c then None else Some (WTF.characters c)) ->
  frameToContentID !! lf_frame frame = Some contentID ->
  WTF.isEmpty contentID = false ->
  length parts = length resources
  /\ forall (i : nat) (part : MHTMLArchive.MIMEPart),
       parts !! i = Some part ->
       (is_Some (MHTMLArchive.part_contentID part) <-> i = 0)
       /\ (i = 0 -> MHTMLArchive.part_contentID part = Some (WTF.characters contentID))
       /\ exists resource,
            resources !! i = Some resource
            /\ part = partOf boundary
                        (if Nat.eqb i 0 then contentID else WTF.null) policy resource.
Proof.
  intros frame frameToContentID policy resources parts Hpart Hmap Hne.
  assert (Hparts : parts =
    match resources with
    | [] => []
    | resource :: rest =>
        partOf boundary contentID policy resource
        :: map (partOf boundary WTF.null policy) rest
    end).
  { subst parts. unfold emittedParts, WebPageSerializer.generateMHTMLParts.
    fold frame frameToContentID policy resources.
    rewrite <- (HashMap_get_Some _ _ _ Hmap).
    apply encodeResources_first. }
  rewrite Hparts. clear Hparts parts.
  destruct resources as [| resource rest].
  - split; [reflexivity |]. intros i part Hi. now rewrite lookup_nil in Hi.
  - split; [cbn; now rewrite length_map |].
    intros [| j] part Hi.
    + cbn in Hi. injection Hi as <-.
      rewrite Hpart, Hne.
      split; [split; [reflexivity | intros _; eexists; reflexivity] |].
      split; [reflexivity |].
      exists resource. split; reflexivity.
    + change ((partOf boundary WTF.null policy <$> rest) !! j = Some part) in Hi.
      rewrite list_lookup_fmap in Hi.
      destruct (rest !! j) as [r |] eqn:Hr; [| discriminate].
      cbn in Hi. injection Hi as <-.
      rewrite Hpart. cbn [WTF.isEmpty].
      split; [split; [intros [x Hx]; discriminate | discriminate] |].
      split; [discriminate |].
      exists r. split; [exact Hr | reflexivity].
Qed.

Lemma generateMHTMLParts_contentID_witness :
  length (emittedParts (build := releaseBuild)
            (MHTMLArchive.partOf (String.prefix "text/"))
            MHTMLParser.convertContentIDToURI
            (fun _ _ => exampleBatch) (WTF.chars "BOUNDARY1") exampleFrame false
            exampleTable)
  = length exampleBatch
  /\ forall (i : nat) (part : MHTMLArchive.MIMEPart),
       emittedParts (build := releaseBuild)
         (MHTMLArchive.partOf (String.prefix "text/"))
         MHTMLParser.convertContentIDToURI
         (fun _ _ => exampleBatch) (WTF.chars "BOUNDARY1") exampleFrame false
         exampleTable !! i = Some part ->
       (is_Some (MHTMLArchive.part_contentID part) <-> i = 0)
       /\ (i = 0 -> MHTMLArchive.part_contentID part = Some "root@archive")
       /\ exists resource,
            exampleBatch !! i = Some resource
            /\ part = MHTMLArchive.partOf (String.prefix "text/") (WTF.chars "BOUNDARY1")
                        (if Nat.eqb i 0 then WTF.chars "root@archive" else WTF.null)
                        MHTMLArchive.UseDefaultEncoding resource.
Proof.
  apply (generateMHTMLParts_contentID (build := releaseBuild)
           (MHTMLArchive.partOf (String.prefix "text/"))
           MHTMLParser.convertContentIDToURI (fun _ _ => exampleBatch)
           (WTF.chars "BOUNDARY1") exampleFrame false exampleTable
           (WTF.chars "root@archive")).
  - intros b c p r. apply partOf_contentID.
  - vm_compute. reflexivity.
  - reflexivity.
Defined.

(** On a lookup miss the first part is passed the null content id as well:
    no part of the batch has a [Content-ID]. *)
Lemma generateMHTMLParts_lookup_miss {build : Build}
    isTextMediaType convertContentIDToURI serializeFrame
    boundary webFrame useBinaryEncoding webFrameToContentID :
  createFrameToContentIDMap webFrameToContentID
    !! lf_frame (toWebLocalFrameImpl_frame webFrame) = None ->
  Forall (fun part => MHTMLArchive.part_contentID part = None)
    (emittedParts (MHTMLArchive.partOf isTextMediaType)
       convertContentIDToURI serializeFrame
       boundary webFrame useBinaryEncoding webFrameToContentID).
Proof.
  intros Hmiss.
  unfold emittedParts, WebPageSerializer.generateMHTMLParts.
  rewrite encodeResources_first, (HashMap_get_None _ _ Hmiss).
  destruct (serializeFrame _ _) as [| resource rest]; [constructor |].
  constructor; [reflexivity |].
  induction rest as [| r rest IH]; cbn [map]; constructor;
    [reflexivity | exact IH].
Qed.

(** * Further properties of the serializer *)

(** ** The frame-to-content-id map *)

Lemma firstContentID_app_miss frame before after :
  Forall (fun it : WebFrame * WebString => toImplBase_frame (fst it) <> frame) before ->
  firstContentID frame (before ++ after) = firstContentID frame after.
Proof.
  induction 1 as [| it before Hit _ IH]; [reflexivity |].
  cbn [app firstContentID].
  destruct (Pos.eqb_spec (toImplBase_frame (fst it)) frame); [contradiction | exact IH].
Qed.

Lemma firstContentID_None frame pairs :
  firstContentID frame pairs = None <->
  Forall (fun it : WebFrame * WebString => toImplBase_frame (fst it) <> frame) pairs.
Proof.
  induction pairs as [| it rest IH]; cbn [firstContentID].
  - split; [constructor | reflexivity].
  - destruct (Pos.eqb_spec (toImplBase_frame (fst it)) frame) as [Heq | Hne].
    + split; [discriminate |]. intros H. inversion H; subst. contradiction.
    + rewrite IH. split; [now constructor |]. intros H. now inversion H.
Qed.

(** X1. When several pairs of the caller's vector name the same frame, the
    map keeps the content id of the first of them: a pair that no earlier
    pair shares its frame with is the one the map gives, whatever follows
    it. *)
Theorem createFrameToContentIDMap_first_pair_wins
    (before after : list (WebFrame * WebString))
    (webFrame : WebFrame) (contentID : WebString) :
  Forall (fun it : WebFrame * WebString =>
            toImplBase_frame (fst it) <> toImplBase_frame webFrame) before ->
  createFrameToContentIDMap (before ++ (webFrame, contentID) :: after)
    !! toImplBase_frame webFrame = Some contentID.
Proof.
  intros Hbefore.
  rewrite createFrameToContentIDMap_lookup, (firstContentID_app_miss _ _ _ Hbefore).
  cbn [firstContentID fst snd]. now rewrite Pos.eqb_refl.
Qed.

Lemma createFrameToContentIDMap_first_pair_wins_witness :
  createFrameToContentIDMap
    ([(mkWebFrame 1%positive, WTF.chars "root@archive")]
     ++ (mkWebFrame 2%positive, WTF.chars "first@archive")
     :: [(mkWebFrame 2%positive, WTF.chars "second@archive")])
    !! 2%positive = Some (WTF.chars "first@archive").
Proof.
  apply (createFrameToContentIDMap_first_pair_wins
           [(mkWebFrame 1%positive, WTF.chars "root@archive")]
           [(mkWebFrame 2%positive, WTF.chars "second@archive")]
           (mkWebFrame 2%positive) (WTF.chars "first@archive")).
  repeat constructor. cbn. discriminate.
Defined.

(** X2. The map has an entry for a frame exactly when some pair of the
    caller's vector names that frame. *)
Theorem createFrameToContentIDMap_entries
    (pairs : list (WebFrame * WebString)) (frame : Frame) :
  is_Some (createFrameToContentIDMap pairs !! frame)
  <-> exists it, In it pairs /\ toImplBase_frame (fst it) = frame.
Proof.
  assert (Hnone : createFrameToContentIDMap pairs !! frame = None <->
                  forall it, In it pairs -> toImplBase_frame (fst it) <> frame).
  { rewrite createFrameToContentIDMap_lookup, firstContentID_None.
    apply List.Forall_forall. }
  split.
  - intros [contentID Hsome].
    destruct (List.Exists_dec
                (fun it : WebFrame * WebString => toImplBase_frame (fst it) = frame)
                pairs) as [Hex | Hnex].
    + intros it. apply Pos.eq_dec.
    + apply List.Exists_exists in Hex as (it & Hin & Heq). now exists it.
    + assert (createFrameToContentIDMap pairs !! frame = None) as Hn.
      { apply Hnone. intros it Hin Heq. apply Hnex.
        apply List.Exists_exists. now exists it. }
      congruence.
  - intros (it & Hin & Heq).
    destruct (createFrameToContentIDMap pairs !! frame) as [contentID |] eqn:E;
      [now exists contentID |].
    exfalso. apply (proj1 Hnone eq_refl it Hin Heq).
Qed.

(** X3. When no two pairs of the caller's vector name the same frame,
    every pair is found in the map: looking up the frame of a pair gives the
    content id of that pair, wherever the pair stands in the vector. *)
Theorem createFrameToContentIDMap_finds_every_pair
    (pairs : list (WebFrame * WebString)) (webFrame : WebFrame) (contentID : WebString) :
  List.NoDup (map (fun it : WebFrame * WebString => toImplBase_frame (fst it)) pairs) ->
  In (webFrame, contentID) pairs ->
  createFrameToContentIDMap pairs !! toImplBase_frame webFrame = Some contentID.
Proof.
  intros Hnodup Hin.
  apply in_split in Hin as (before & after & ->).
  rewrite map_app in Hnodup. cbn [map fst] in Hnodup.
  apply NoDup_remove_2 in Hnodup.
  rewrite createFrameToContentIDMap_lookup, firstContentID_app_miss.
  - cbn [firstContentID fst snd]. now rewrite Pos.eqb_refl.
  - apply List.Forall_forall. intros it Hit Heq. apply Hnodup.
    apply in_or_app. left. rewrite <- Heq.
    apply (in_map (fun it : WebFrame * WebString => toImplBase_frame (fst it))).
    exact Hit.
Qed.

Lemma createFrameToContentIDMap_finds_every_pair_witness :
  createFrameToContentIDMap exampleTable !! 2%positive
  = Some (WTF.chars "child@archive").
Proof.
  apply (createFrameToContentIDMap_finds_every_pair exampleTable
           (mkWebFrame 2%positive) (WTF.chars "child@archive")).
  - cbn. repeat constructor; cbn; intuition discriminate.
  - cbn. right. left. reflexivity.
Defined.

(** ** The calls of the part emitter *)

Section PartCalls.

Import MHTMLArchive.

Context {SharedBuffer : Type}.
Variable generateMHTMLPart :
  WTF.String -> WTF.String -> EncodingPolicy -> SerializedResource ->
  SharedBuffer -> SharedBuffer.

Lemma replay_app (output : SharedBuffer) (calls more : list PartCall) :
  replay generateMHTMLPart output (calls ++ more)
  = replay generateMHTMLPart (replay generateMHTMLPart output calls) more.
Proof. unfold replay. apply fold_left_app. Qed.

(** Running the loop with an emitter is running the emitter on the calls
    the loop records. *)
Lemma encodeResources_replay boundary m frame policy resources :
  forall first (output : SharedBuffer) (calls : list PartCall),
  WebPageSerializer.encodeResources generateMHTMLPart
    boundary m frame policy first resources (replay generateMHTMLPart output calls)
  = replay generateMHTMLPart output
      (WebPageSerializer.encodeResources recordCall
         boundary m frame policy first resources calls).
Proof.
  induction resources as [| resource rest IH]; intros first output calls.
  - reflexivity.
  - cbn [WebPageSerializer.encodeResources].
    rewrite <- IH. f_equal.
    unfold recordCall. rewrite replay_app. reflexivity.
Qed.

End PartCalls.

(** After the first resource every call is passed the null content id. *)
Lemma encodeResources_calls_rest boundary m frame policy resources
    (calls : list PartCall) :
  WebPageSerializer.encodeResources recordCall
    boundary m frame policy false resources calls
  = (calls ++ map (mkPartCall boundary WTF.null policy) resources)%list.
Proof.
  revert calls.
  induction resources as [| resource rest IH]; intros calls.
  - cbn. now rewrite app_nil_r.
  - cbn [WebPageSerializer.encodeResources map]. rewrite IH.
    unfold recordCall. now rewrite <- app_assoc.
Qed.

Lemma encodeResources_calls_first boundary m frame policy resources :
  WebPageSerializer.encodeResources recordCall
    boundary m frame policy true resources []
  = match resources with
    | [] => []
    | resource :: rest =>
        mkPartCall boundary (HashMap_get m (lf_frame frame)) policy resource
        :: map (mkPartCall boundary WTF.null policy) rest
    end.
Proof.
  destruct resources as [| resource rest]; [reflexivity |].
  cbn [WebPageSerializer.encodeResources]. now rewrite encodeResources_calls_rest.
Qed.

(** X4. The calls [generateMHTMLParts] makes of the part emitter: one per
    resource of the batch, in the order of the batch, every one with the
    boundary as given and the policy chosen by [useBinaryEncoding]; the
    first is passed what the map gives for the frame (the null string on a
    miss) and every other one the null string.  An empty batch makes no
    call. *)
Theorem generateMHTMLParts_calls {build : Build}
    (convertContentIDToURI : WTF.String -> KURL)
    (serializeFrame : Delegate -> LocalFrame -> list MHTMLArchive.SerializedResource)
    (boundary : WebString) (webFrame : WebLocalFrame) (useBinaryEncoding : bool)
    (webFrameToContentID : list (WebFrame * WebString)) :
  let frame := toWebLocalFrameImpl_frame webFrame in
  let frameToContentID := createFrameToContentIDMap webFrameToContentID in
  let policy :=
    if useBinaryEncoding then MHTMLArchive.UseBinaryEncoding
    else MHTMLArchive.UseDefaultEncoding in
  partCalls convertContentIDToURI serializeFrame
    boundary webFrame useBinaryEncoding webFrameToContentID
  = match serializeFrame
            (WebPageSerializer.delegateOf convertContentIDToURI frameToContentID)
            frame with
    | [] => []
    | resource :: rest =>
        mkPartCall boundary (HashMap_get frameToContentID (lf_frame frame))
          policy resource
        :: map (mkPartCall boundary WTF.null policy) rest
    end.
Proof.
  intros frame frameToContentID policy.
  unfold partCalls, WebPageSerializer.generateMHTMLParts.
  apply encodeResources_calls_first.
Qed.

(** Whatever the part emitter and the output buffer are, the result of
    [generateMHTMLParts] is the fresh buffer after the emitter has run on
    the recorded calls, in order. *)
Lemma generateMHTMLParts_replays_calls {build : Build}
    {SharedBuffer : Type} (create : SharedBuffer)
    (generateMHTMLPart :
       WTF.String -> WTF.String -> MHTMLArchive.EncodingPolicy ->
       MHTMLArchive.SerializedResource -> SharedBuffer -> SharedBuffer)
    (convertContentIDToURI : WTF.String -> KURL)
    (serializeFrame : Delegate -> LocalFrame -> list MHTMLArchive.SerializedResource)
    (boundary : WebString) (webFrame : WebLocalFrame) (useBinaryEncoding : bool)
    (webFrameToContentID : list (WebFrame * WebString)) :
  WebPageSerializer.generateMHTMLParts create generateMHTMLPart
    convertContentIDToURI serializeFrame
    boundary webFrame useBinaryEncoding webFrameToContentID
  = replay generateMHTMLPart create
      (partCalls convertContentIDToURI serializeFrame
         boundary webFrame useBinaryEncoding webFrameToContentID).
Proof.
  unfold partCalls, WebPageSerializer.generateMHTMLParts.
  apply (encodeResources_replay generateMHTMLPart _ _ _ _ _ true create []).
Qed.

(** An emitter that appends to the buffer, run on recorded calls. *)
Lemma replay_appending {A : Type}
    (chunk : WTF.String -> WTF.String -> MHTMLArchive.EncodingPolicy ->
             MHTMLArchive.SerializedResource -> list A)
    (output : list A) (calls : list PartCall) :
  replay (fun boundary contentID policy resource (output : list A) =>
            (output ++ chunk boundary contentID policy resource)%list)
    output calls
  = (output ++ concat
       (map (fun call =>
               chunk (call_boundary call) (call_contentID call)
                 (call_policy call) (call_resource call)) calls))%list.
Proof.
  revert output. unfold replay.
  induction calls as [| call calls IH]; intros output.
  - cbn. now rewrite app_nil_r.
  - cbn [fold_left map concat]. rewrite IH. now rewrite <- app_assoc.
Qed.

(** X5. With an emitter that appends to the buffer, the bytes returned by
    [generateMHTMLParts] are the chunks of the calls one after the other,
    with nothing before, between or after them. *)
Theorem generateMHTMLParts_concatenates {build : Build}
    {A : Type}
    (chunk : WTF.String -> WTF.String -> MHTMLArchive.EncodingPolicy ->
             MHTMLArchive.SerializedResource -> list A)
    (convertContentIDToURI : WTF.String -> KURL)
    (serializeFrame : Delegate -> LocalFrame -> list MHTMLArchive.SerializedResource)
    (boundary : WebString) (webFrame : WebLocalFrame) (useBinaryEncoding : bool)
    (webFrameToContentID : list (WebFrame * WebString)) :
  WebPageSerializer.generateMHTMLParts []
    (fun boundary contentID policy resource output =>
       (output ++ chunk boundary contentID policy resource)%list)
    convertContentIDToURI serializeFrame
    boundary webFrame useBinaryEncoding webFrameToContentID
  = concat
      (map (fun call =>
              chunk (call_boundary call) (call_contentID call)
                (call_policy call) (call_resource call))
         (partCalls convertContentIDToURI serializeFrame
            boundary webFrame useBinaryEncoding webFrameToContentID)).
Proof.
  unfold partCalls, WebPageSerializer.generateMHTMLParts.
  etransitivity;
    [apply (encodeResources_replay
              (fun boundary contentID policy resource (output : list A) =>
                 (output ++ chunk boundary contentID policy resource)%list)
              _ _ _ _ _ true [] []) |].
  apply (replay_appending chunk []).
Qed.

(** X6. When no pair of the caller's vector names the frame, every call of
    the part emitter, the first included, is passed the null content id:
    the batch is emitted all the same, and no assertion guards the lookup. *)
Theorem generateMHTMLParts_lookup_miss_calls {build : Build}
    (convertContentIDToURI : WTF.String -> KURL)
    (serializeFrame : Delegate -> LocalFrame -> list MHTMLArchive.SerializedResource)
    (boundary : WebString) (webFrame : WebLocalFrame) (useBinaryEncoding : bool)
    (webFrameToContentID : list (WebFrame * WebString)) :
  Forall (fun it : WebFrame * WebString =>
            toImplBase_frame (fst it) <> lf_frame (toWebLocalFrameImpl_frame webFrame))
    webFrameToContentID ->
  let calls :=
    partCalls convertContentIDToURI serializeFrame
      boundary webFrame useBinaryEncoding webFrameToContentID in
  length calls
    = length (serializeFrame
                (WebPageSerializer.delegateOf convertContentIDToURI
                   (createFrameToContentIDMap webFrameToContentID))
                (toWebLocalFrameImpl_frame webFrame))
  /\ Forall (fun call => call_contentID call = WTF.null) calls.
Proof.
  intros Hmiss calls. subst calls.
  unfold partCalls, WebPageSerializer.generateMHTMLParts.
  rewrite encodeResources_calls_first.
  assert (Hnull : HashMap_get (createFrameToContentIDMap webFrameToContentID)
                    (lf_frame (toWebLocalFrameImpl_frame webFrame)) = WTF.null).
  { apply HashMap_get_None.
    rewrite createFrameToContentIDMap_lookup. now apply firstContentID_None. }
  rewrite Hnull.
  destruct (serializeFrame _ _) as [| resource rest].
  - split; [reflexivity | constructor].
  - split; [cbn; now rewrite length_map |].
    constructor; [reflexivity |].
    induction rest as [| r rest IH]; cbn [map]; constructor;
      [reflexivity | exact IH].
Qed.

Lemma generateMHTMLParts_lookup_miss_calls_witness :
  length (partCalls (build := releaseBuild) MHTMLParser.convertContentIDToURI
            (fun _ _ => exampleBatch)
            (WTF.chars "BOUNDARY1") exampleFrame false
            [(mkWebFrame 2%positive, WTF.chars "child@archive")])
    = length exampleBatch
  /\ Forall (fun call => call_contentID call = WTF.null)
       (partCalls (build := releaseBuild) MHTMLParser.convertContentIDToURI
          (fun _ _ => exampleBatch)
          (WTF.chars "BOUNDARY1") exampleFrame false
          [(mkWebFrame 2%positive, WTF.chars "child@archive")]).
Proof.
  apply (generateMHTMLParts_lookup_miss_calls (build := releaseBuild)
           MHTMLParser.convertContentIDToURI
           (fun _ _ => exampleBatch) (WTF.chars "BOUNDARY1") exampleFrame false
           [(mkWebFrame 2%positive, WTF.chars "child@archive")]).
  repeat constructor. cbn. discriminate.
Defined.

(** ** The delegate: the outcomes of [rewriteLink] *)

Section RewriteLinkOutcomes.

Import MHTMLPageSerializerDelegate.

Context {build : Build}.
Variable convertContentIDToURI : WTF.String -> KURL.

(** The four ways a call ends, by the tests the code makes in order. *)
Lemma rewriteLink_outcome m element link :
  rewriteLink convertContentIDToURI m element link =
    match isFrameOwnerElement element, contentFrame element with
    | false, _ | true, None => Returns (false, link)
    | true, Some frame =>
        let cidURI := convertContentIDToURI (HashMap_get m frame) in
        if assertEnabled && negb (KURL_isValid cidURI) then AssertionFailure
        else if isHTMLFrameElementBase element then Returns (true, KURL_string cidURI)
        else if isHTMLObjectElement element then
          match contentDocument element with
          | None => NullDereference
          | Some doc =>
              if isHandledBySerializer doc then Returns (true, KURL_string cidURI)
              else Returns (false, link)
          end
        else Returns (false, link)
    end.
Proof.
  unfold rewriteLink.
  destruct (isFrameOwnerElement element); reflexivity.
Qed.

End RewriteLinkOutcomes.

(** X7. Whenever [rewriteLink] returns false, the out-parameter
    [rewrittenLink] holds what it held before the call. *)
Theorem rewriteLink_false_leaves_link {build : Build}
    (convertContentIDToURI : WTF.String -> KURL)
    (frameToContentID : gmap Frame WTF.String)
    (element : Element) (rewrittenLink after : WTF.String) :
  MHTMLPageSerializerDelegate.rewriteLink convertContentIDToURI frameToContentID
    element rewrittenLink = Returns (false, after) ->
  after = rewrittenLink.
Proof.
  rewrite rewriteLink_outcome.
  destruct (isFrameOwnerElement element); [| congruence].
  destruct (contentFrame element) as [frame |]; [| congruence].
  cbv zeta.
  destruct (assertEnabled && negb _); [congruence |].
  destruct (isHTMLFrameElementBase element); [congruence |].
  destruct (isHTMLObjectElement element); [| congruence].
  destruct (contentDocument element) as [doc |]; [| congruence].
  destruct (isHandledBySerializer doc); congruence.
Qed.

Lemma rewriteLink_false_leaves_link_witness :
  MHTMLPageSerializerDelegate.rewriteLink (build := releaseBuild)
    MHTMLParser.convertContentIDToURI
    (<[2%positive := WTF.chars "child@archive"]> ∅)
    (mkElement OtherFrameOwner (Some 2%positive) None) (WTF.chars "movie.swf")
  = Returns (false, WTF.chars "movie.swf")
  /\ WTF.chars "movie.swf" = WTF.chars "movie.swf".
Proof.
  assert (H : MHTMLPageSerializerDelegate.rewriteLink (build := releaseBuild)
    MHTMLParser.convertContentIDToURI
                (<[2%positive := WTF.chars "child@archive"]> ∅)
                (mkElement OtherFrameOwner (Some 2%positive) None)
                (WTF.chars "movie.swf")
              = Returns (false, WTF.chars "movie.swf"))
    by (vm_compute; reflexivity).
  split; [exact H |].
  exact (rewriteLink_false_leaves_link _ _ _ _ _ H).
Defined.

(** The assertion lets the call through exactly when it is compiled out or
    the URI is valid. *)
Lemma assertion_passes_iff {build : Build} (valid : bool) :
  assertEnabled && negb valid = false <-> (assertEnabled = true -> valid = true).
Proof.
  destruct assertEnabled, valid; cbn; split; intros H; try reflexivity;
    try discriminate; try (intros; reflexivity).
  discriminate (H eq_refl).
Qed.

(** X8. [rewriteLink] returns true exactly for a frame owner with a content
    frame, when the element is a frame or iframe element, or an object
    element whose content document is an HTML, XHTML or image document, and
    the assertion lets the call through: the URI converted from the content
    id is valid, or [ASSERT] is compiled out.  The link is then the string
    of that URI, valid or not. *)
Theorem rewriteLink_true_iff {build : Build}
    (convertContentIDToURI : WTF.String -> KURL)
    (frameToContentID : gmap Frame WTF.String)
    (element : Element) (rewrittenLink after : WTF.String) :
  MHTMLPageSerializerDelegate.rewriteLink convertContentIDToURI frameToContentID
    element rewrittenLink = Returns (true, after)
  <-> exists frame,
        isFrameOwnerElement element = true
        /\ contentFrame element = Some frame
        /\ (assertEnabled = true ->
            KURL_isValid
              (convertContentIDToURI (HashMap_get frameToContentID frame)) = true)
        /\ after = KURL_string
                     (convertContentIDToURI (HashMap_get frameToContentID frame))
        /\ (isHTMLFrameElementBase element = true
            \/ (isHTMLObjectElement element = true
                /\ exists doc, contentDocument element = Some doc
                    /\ isHTMLDocument doc || isXHTMLDocument doc
                       || isImageDocument doc = true)).
Proof.
  rewrite rewriteLink_outcome. split.
  - destruct (isFrameOwnerElement element); [| congruence].
    destruct (contentFrame element) as [frame |]; [| congruence].
    cbv zeta.
    destruct (assertEnabled && negb _) eqn:Hassert; [congruence |].
    pose proof (proj1 (assertion_passes_iff _) Hassert) as Hpass.
    destruct (isHTMLFrameElementBase element) eqn:Hbase.
    + intros [= <-]. exists frame. repeat split; auto.
    + destruct (isHTMLObjectElement element) eqn:Hobj; [| congruence].
      destruct (contentDocument element) as [doc |]; [| congruence].
      destruct (isHandledBySerializer doc) eqn:Hdoc; [| congruence].
      intros [= <-]. exists frame. repeat split; auto.
      right. split; [reflexivity |]. now exists doc.
  - intros (frame & Hown & Hframe & Hassert & -> & Hkind).
    rewrite Hown, Hframe. cbv zeta.
    rewrite (proj2 (assertion_passes_iff _) Hassert).
    destruct Hkind as [Hbase | (Hobj & doc & Hdoc & Hhandled)].
    + now rewrite Hbase.
    + destruct (objectElement_is_owner _ Hobj) as [_ Hbase].
      rewrite Hbase, Hobj, Hdoc. unfold isHandledBySerializer.
      now rewrite Hhandled.
Qed.

(** X9. Where [ASSERT] is compiled in, the assertion on the URI fails
    exactly for a frame owner with a content frame whose content id (the
    null string on a miss) does not convert to a valid URI; the kind of the
    element plays no part, so the assertion also fails for frame owners
    whose link is never rewritten.  Where [ASSERT] is compiled out no call
    ends at the assertion. *)
Theorem rewriteLink_assertion_iff {build : Build}
    (convertContentIDToURI : WTF.String -> KURL)
    (frameToContentID : gmap Frame WTF.String)
    (element : Element) (rewrittenLink : WTF.String) :
  MHTMLPageSerializerDelegate.rewriteLink convertContentIDToURI frameToContentID
    element rewrittenLink = AssertionFailure
  <-> assertEnabled = true
      /\ exists frame,
        isFrameOwnerElement element = true
        /\ contentFrame element = Some frame
        /\ KURL_isValid
             (convertContentIDToURI (HashMap_get frameToContentID frame)) = false.
Proof.
  rewrite rewriteLink_outcome. split.
  - destruct (isFrameOwnerElement element); [| congruence].
    destruct (contentFrame element) as [frame |]; [| congruence].
    cbv zeta.
    destruct (assertEnabled && negb _) eqn:Hassert.
    + intros _. apply andb_true_iff in Hassert as [Hon Hinvalid].
      apply negb_true_iff in Hinvalid.
      split; [exact Hon |]. now exists frame.
    + destruct (isHTMLFrameElementBase element); [congruence |].
      destruct (isHTMLObjectElement element); [| congruence].
      destruct (contentDocument element) as [doc |]; [| congruence].
      destruct (isHandledBySerializer doc); congruence.
  - intros (Hon & frame & Hown & Hframe & Hvalid).
    rewrite Hown, Hframe. cbv zeta. now rewrite Hon, Hvalid.
Qed.

(** X10. The call dereferences a null document exactly for an object
    element that owns a content frame and whose content document is null,
    when the assertion lets the call through (the URI converted from the
    content id is valid, or [ASSERT] is compiled out): the document is asked
    for its kind without a null check. *)
Theorem rewriteLink_null_document_iff {build : Build}
    (convertContentIDToURI : WTF.String -> KURL)
    (frameToContentID : gmap Frame WTF.String)
    (element : Element) (rewrittenLink : WTF.String) :
  MHTMLPageSerializerDelegate.rewriteLink convertContentIDToURI frameToContentID
    element rewrittenLink = NullDereference
  <-> exists frame,
        isHTMLObjectElement element = true
        /\ contentFrame element = Some frame
        /\ (assertEnabled = true ->
            KURL_isValid
              (convertContentIDToURI (HashMap_get frameToContentID frame)) = true)
        /\ contentDocument element = None.
Proof.
  rewrite rewriteLink_outcome. split.
  - destruct (isFrameOwnerElement element); [| congruence].
    destruct (contentFrame element) as [frame |]; [| congruence].
    cbv zeta.
    destruct (assertEnabled && negb _) eqn:Hassert; [congruence |].
    pose proof (proj1 (assertion_passes_iff _) Hassert) as Hpass.
    destruct (isHTMLFrameElementBase element); [congruence |].
    destruct (isHTMLObjectElement element); [| congruence].
    destruct (contentDocument element) as [doc |].
    + destruct (isHandledBySerializer doc); congruence.
    + intros _. now exists frame.
  - intros (frame & Hobj & Hframe & Hassert & Hdoc).
    destruct (objectElement_is_owner _ Hobj) as [Hown Hbase].
    rewrite Hown, Hframe. cbv zeta.
    rewrite (proj2 (assertion_passes_iff _) Hassert).
    now rewrite Hbase, Hobj, Hdoc.
Qed.

(** X11. The call reads the map at the content frame of the element only:
    two maps that agree there give the same outcome, so entries of other
    frames never change what an element's link is rewritten to. *)
Theorem rewriteLink_reads_one_entry {build : Build}
    (convertContentIDToURI : WTF.String -> KURL)
    (m1 m2 : gmap Frame WTF.String)
    (element : Element) (rewrittenLink : WTF.String) :
  (forall frame, contentFrame element = Some frame -> m1 !! frame = m2 !! frame) ->
  MHTMLPageSerializerDelegate.rewriteLink convertContentIDToURI m1 element rewrittenLink
  = MHTMLPageSerializerDelegate.rewriteLink convertContentIDToURI m2 element
      rewrittenLink.
Proof.
  intros Hagree. rewrite !rewriteLink_outcome.
  destruct (isFrameOwnerElement element); [| reflexivity].
  destruct (contentFrame element) as [frame |]; [| reflexivity].
  unfold HashMap_get. now rewrite (Hagree frame eq_refl).
Qed.

Lemma rewriteLink_reads_one_entry_witness :
  MHTMLPageSerializerDelegate.rewriteLink (build := debugBuild)
    MHTMLParser.convertContentIDToURI
    (<[2%positive := WTF.chars "child@archive"]> ∅)
    (mkElement HTMLIFrameElement (Some 2%positive) None) (WTF.chars "child.html")
  = MHTMLPageSerializerDelegate.rewriteLink (build := debugBuild)
    MHTMLParser.convertContentIDToURI
      (<[3%positive := WTF.chars "other@archive"]>
         (<[2%positive := WTF.chars "child@archive"]> ∅))
      (mkElement HTMLIFrameElement (Some 2%positive) None) (WTF.chars "child.html").
Proof.
  apply (rewriteLink_reads_one_entry (build := debugBuild) MHTMLParser.convertContentIDToURI
           (<[2%positive := WTF.chars "child@archive"]> ∅)
           (<[3%positive := WTF.chars "other@archive"]>
              (<[2%positive := WTF.chars "child@archive"]> ∅))
           (mkElement HTMLIFrameElement (Some 2%positive) None)).
  intros frame [= <-]. vm_compute. reflexivity.
Defined.

(** X12. The reference written for a nested frame and the content id of the
    part of that frame's document come from the same entry of the map: when
    the map gives a frame a content id whose URI is valid, the link of a
    frame or iframe element that owns the frame is rewritten to the string
    of that URI, and the first part emitted for that frame is passed that
    very content id. *)
Theorem link_and_contentID_agree {build : Build}
    (convertContentIDToURI : WTF.String -> KURL)
    (serializeFrame : Delegate -> LocalFrame -> list MHTMLArchive.SerializedResource)
    (boundary : WebString) (nested : WebLocalFrame) (useBinaryEncoding : bool)
    (webFrameToContentID : list (WebFrame * WebString))
    (element : Element) (rewrittenLink contentID : WTF.String) :
  let frame := lf_frame (toWebLocalFrameImpl_frame nested) in
  let frameToContentID := createFrameToContentIDMap webFrameToContentID in
  frameToContentID !! frame = Some contentID ->
  KURL_isValid (convertContentIDToURI contentID) = true ->
  isHTMLFrameElementBase element = true ->
  contentFrame element = Some frame ->
  delegate_rewriteLink
    (WebPageSerializer.delegateOf convertContentIDToURI frameToContentID)
    element rewrittenLink
  = Returns (true, KURL_string (convertContentIDToURI contentID))
  /\ forall call,
       head (partCalls convertContentIDToURI serializeFrame
               boundary nested useBinaryEncoding webFrameToContentID) = Some call ->
       call_contentID call = contentID.
Proof.
  intros frame frameToContentID Hmap Hvalid Hbase Hframe. split.
  - cbn [delegate_rewriteLink WebPageSerializer.delegateOf].
    rewrite (rewriteLink_valid _ _ _ _ _ _ Hframe Hmap Hvalid).
    now rewrite (frameElementBase_is_owner _ Hbase), Hbase.
  - intros call.
    unfold partCalls, WebPageSerializer.generateMHTMLParts.
    rewrite encodeResources_calls_first.
    fold frameToContentID. fold frame.
    rewrite (HashMap_get_Some _ _ _ Hmap).
    destruct (serializeFrame _ _) as [| resource rest]; [discriminate |].
    now intros [= <-].
Qed.

Lemma link_and_contentID_agree_witness :
  delegate_rewriteLink
    (WebPageSerializer.delegateOf (build := debugBuild) MHTMLParser.convertContentIDToURI
       (createFrameToContentIDMap exampleTable))
    (mkElement HTMLIFrameElement (Some 1%positive) None) (WTF.chars "root.html")
  = Returns (true, WTF.chars "cid:root@archive")
  /\ forall call,
       head (partCalls (build := debugBuild) MHTMLParser.convertContentIDToURI
               (fun _ _ => exampleBatch)
               (WTF.chars "BOUNDARY1") exampleFrame false exampleTable) = Some call ->
       call_contentID call = WTF.chars "root@archive".
Proof.
  apply (link_and_contentID_agree (build := debugBuild) MHTMLParser.convertContentIDToURI
           (fun _ _ => exampleBatch) (WTF.chars "BOUNDARY1") exampleFrame false
           exampleTable (mkElement HTMLIFrameElement (Some 1%positive) None)
           (WTF.chars "root.html") (WTF.chars "root@archive")).
  - vm_compute. reflexivity.
  - reflexivity.
  - reflexivity.
  - reflexivity.
Defined.

(** ** The markup string builders: reading the markup back *)

Lemma append_nil_l (s : string) : EmptyString +:+ s = s.
Proof. reflexivity. Qed.

(** X13. For a base target that is not empty and holds no double quote,
    the [target] attribute of the tag reads back as the base target exactly,
    and the tag closes right after it. *)
Theorem generateBaseTagDeclaration_reads_back (baseTarget : WTF.String) :
  WTF.isEmpty baseTarget = false ->
  hasQuote (WTF.characters baseTarget) = false ->
  exists markup : string,
    generateBaseTagDeclaration baseTarget =
      WTF.chars ("<base href=" +:+ q +:+ "." +:+ q +:+ " target=" +:+ q +:+ markup)
    /\ readQuoted markup = (WTF.characters baseTarget, ">").
Proof.
  intros Hne Hquote.
  exists (WTF.characters baseTarget +:+ q +:+ ">").
  split.
  - unfold generateBaseTagDeclaration. rewrite Hne. reflexivity.
  - now apply readQuoted_app.
Qed.

Lemma generateBaseTagDeclaration_reads_back_witness :
  exists markup : string,
    generateBaseTagDeclaration (WTF.chars "_blank") =
      WTF.chars ("<base href=" +:+ q +:+ "." +:+ q +:+ " target=" +:+ q +:+ markup)
    /\ readQuoted markup = ("_blank", ">").
Proof.
  exact (generateBaseTagDeclaration_reads_back (WTF.chars "_blank") eq_refl eq_refl).
Defined.

(** X14. The base target is written without escaping: for a base target
    [a"b] with no double quote in [a], the [target] attribute of the tag
    reads as [a] only, and [b">] follows it outside the value. *)
Theorem generateBaseTagDeclaration_unescaped (baseTarget : WTF.String) (a b : string) :
  hasQuote a = false ->
  WTF.characters baseTarget = a +:+ q +:+ b ->
  exists markup : string,
    generateBaseTagDeclaration baseTarget =
      WTF.chars ("<base href=" +:+ q +:+ "." +:+ q +:+ " target=" +:+ q +:+ markup)
    /\ readQuoted markup = (a, b +:+ q +:+ ">").
Proof.
  intros Hquote Hchars.
  assert (Hne : WTF.isEmpty baseTarget = false).
  { destruct baseTarget as [| s]; cbn in Hchars.
    - destruct a; discriminate.
    - subst s. destruct a; reflexivity. }
  exists (WTF.characters baseTarget +:+ q +:+ ">").
  split.
  - unfold generateBaseTagDeclaration. rewrite Hne. reflexivity.
  - rewrite Hchars, (append_assoc3 a (q +:+ b) (q +:+ ">")).
    change ((q +:+ b) +:+ q +:+ ">") with (q +:+ (b +:+ q +:+ ">")).
    now apply readQuoted_app.
Qed.

Lemma generateBaseTagDeclaration_unescaped_witness :
  exists markup : string,
    generateBaseTagDeclaration (WTF.chars ("x" +:+ q +:+ " onload=" +:+ q +:+ "y")) =
      WTF.chars ("<base href=" +:+ q +:+ "." +:+ q +:+ " target=" +:+ q +:+ markup)
    /\ readQuoted markup = ("x", " onload=" +:+ q +:+ "y" +:+ q +:+ ">").
Proof.
  exact (generateBaseTagDeclaration_unescaped
           (WTF.chars ("x" +:+ q +:+ " onload=" +:+ q +:+ "y"))
           "x" (" onload=" +:+ q +:+ "y") eq_refl eq_refl).
Defined.

(** X15. For a charset that holds no double quote, the [content] attribute
    of the meta tag reads back as [text/html; charset=] followed by the
    charset exactly, and the tag closes right after it. *)
Theorem generateMetaCharsetDeclaration_reads_back (charset : WTF.String) :
  hasQuote (WTF.characters charset) = false ->
  exists markup : string,
    generateMetaCharsetDeclaration charset =
      WTF.chars ("<meta http-equiv=" +:+ q +:+ "Content-Type" +:+ q
                 +:+ " content=" +:+ q +:+ markup)
    /\ readQuoted markup = ("text/html; charset=" +:+ WTF.characters charset, ">").
Proof.
  intros Hquote.
  exists ("text/html; charset=" +:+ WTF.characters charset +:+ q +:+ ">").
  split; [reflexivity |].
  change ("text/html; charset=" +:+ WTF.characters charset +:+ q +:+ ">")
    with (("text/html; charset=" +:+ WTF.characters charset) +:+ q +:+ ">").
  apply readQuoted_app. exact Hquote.
Qed.

Lemma generateMetaCharsetDeclaration_reads_back_witness :
  exists markup : string,
    generateMetaCharsetDeclaration (WTF.chars "utf-8") =
      WTF.chars ("<meta http-equiv=" +:+ q +:+ "Content-Type" +:+ q
                 +:+ " content=" +:+ q +:+ markup)
    /\ readQuoted markup = ("text/html; charset=utf-8", ">").
Proof.
  exact (generateMetaCharsetDeclaration_reads_back (WTF.chars "utf-8") eq_refl).
Defined.

(** ** The mark of the web *)

Lemma startsWithCommentEnd_app (a rest : string) :
  a <> EmptyString ->
  startsWithCommentEnd a = false ->
  startsWithCommentEnd (a +:+ "-->" +:+ rest) = false.
Proof.
  intros Hne Hstart.
  destruct a as [| c [| d [| e a']]]; [contradiction | | |].
  - change (startsWithCommentEnd
              (String c (String "-" (String "-" (String ">" rest)))) = false).
    cbn [startsWithCommentEnd]. destruct (Ascii.eqb c "-"); reflexivity.
  - change (startsWithCommentEnd
              (String c (String d (String "-" (String "-" (String ">" rest)))))
            = false).
    cbn [startsWithCommentEnd].
    destruct (Ascii.eqb c "-"), (Ascii.eqb d "-"); reflexivity.
  - exact Hstart.
Qed.

(** Reading up to the first [-->]. *)
Lemma readComment_app (a rest : string) :
  hasCommentEnd a = false ->
  readComment (a +:+ "-->" +:+ rest) = Some (a, rest).
Proof.
  induction a as [| c a IH]; intros H.
  - reflexivity.
  - cbn [hasCommentEnd] in H. apply orb_false_iff in H as [Hstart Hrest].
    pose proof (startsWithCommentEnd_app (String c a) rest
                  ltac:(discriminate) Hstart) as Hs.
    rewrite append_cons in Hs |- *.
    cbn [readComment]. rewrite Hs, (IH Hrest). reflexivity.
Qed.

Lemma hasCommentEnd_space_l (s : string) :
  hasCommentEnd (String " " s) = hasCommentEnd s.
Proof.
  cbn [hasCommentEnd].
  destruct s as [| b [| c s']]; reflexivity.
Qed.

Lemma hasCommentEnd_space_r (s : string) :
  hasCommentEnd s = false -> hasCommentEnd (s +:+ " ") = false.
Proof.
  induction s as [| c s IH]; intros H.
  - reflexivity.
  - cbn [hasCommentEnd] in H. apply orb_false_iff in H as [Hstart Hrest].
    rewrite append_cons. cbn [hasCommentEnd]. rewrite (IH Hrest), orb_false_r.
    destruct s as [| d [| e s']].
    + reflexivity.
    + change (startsWithCommentEnd (String c (String d (String " " EmptyString)))
              = false).
      cbn [startsWithCommentEnd].
      destruct (Ascii.eqb c "-"), (Ascii.eqb d "-"); reflexivity.
    + exact Hstart.
Qed.

Section MarkOfTheWebProperties.

Context {WebURL : Type}.
Variable markOfTheWebDeclaration : WebURL -> WTF.String.

(** The declaration: the opening of a comment, the mark between two
    spaces, the end of the comment, each on a line of its own. *)
Lemma generateMarkOfTheWebDeclaration_chars (url : WebURL) :
  generateMarkOfTheWebDeclaration markOfTheWebDeclaration url =
    WTF.chars (newline +:+ "<!--"
               +:+ (" " +:+ WTF.characters (markOfTheWebDeclaration url))
               +:+ " -->" +:+ newline).
Proof.
  unfold generateMarkOfTheWebDeclaration, StringBuilder.toString,
    StringBuilder.append, StringBuilder.appendLiteral, StringBuilder.empty.
  reflexivity.
Qed.

End MarkOfTheWebProperties.

(** X16. When the mark holds no [-->], the declaration is one closed
    comment: after the opening [<!--], the text up to the first [-->] is
    the mark between two spaces, and only a line feed follows. *)
Theorem generateMarkOfTheWebDeclaration_closed_comment
    {WebURL : Type} (markOfTheWebDeclaration : WebURL -> WTF.String) (url : WebURL) :
  hasCommentEnd (WTF.characters (markOfTheWebDeclaration url)) = false ->
  exists body : string,
    generateMarkOfTheWebDeclaration markOfTheWebDeclaration url =
      WTF.chars (newline +:+ "<!--" +:+ body)
    /\ readComment body =
         Some (" " +:+ WTF.characters (markOfTheWebDeclaration url) +:+ " ", newline).
Proof.
  intros Hmark.
  set (mark := WTF.characters (markOfTheWebDeclaration url)) in *.
  exists ((" " +:+ mark +:+ " ") +:+ "-->" +:+ newline).
  split.
  - rewrite generateMarkOfTheWebDeclaration_chars. fold mark. f_equal.
    rewrite !append_assoc3. reflexivity.
  - apply readComment_app.
    change (" " +:+ mark +:+ " ") with (String " " (mark +:+ " ")).
    rewrite hasCommentEnd_space_l. now apply hasCommentEnd_space_r.
Qed.

Lemma generateMarkOfTheWebDeclaration_closed_comment_witness :
  exists body : string,
    generateMarkOfTheWebDeclaration
      (fun url : string => WTF.chars ("saved from url=" +:+ url))
      "http://example.test/" =
      WTF.chars (newline +:+ "<!--" +:+ body)
    /\ readComment body = Some (" saved from url=http://example.test/ ", newline).
Proof.
  exact (generateMarkOfTheWebDeclaration_closed_comment
           (fun url : string => WTF.chars ("saved from url=" +:+ url))
           "http://example.test/" eq_refl).
Defined.

(** X17. The mark is written without escaping: when the mark is [a-->b]
    with no [-->] in [a], the comment ends inside the mark, after [a], and
    [b] follows it outside the comment. *)
Theorem generateMarkOfTheWebDeclaration_unescaped
    {WebURL : Type} (markOfTheWebDeclaration : WebURL -> WTF.String) (url : WebURL)
    (a b : string) :
  hasCommentEnd a = false ->
  WTF.characters (markOfTheWebDeclaration url) = a +:+ "-->" +:+ b ->
  exists body : string,
    generateMarkOfTheWebDeclaration markOfTheWebDeclaration url =
      WTF.chars (newline +:+ "<!--" +:+ body)
    /\ readComment body = Some (" " +:+ a, b +:+ " -->" +:+ newline).
Proof.
  intros Ha Hmark.
  exists ((" " +:+ a) +:+ "-->" +:+ (b +:+ " -->" +:+ newline)).
  split.
  - rewrite generateMarkOfTheWebDeclaration_chars, Hmark. f_equal.
    rewrite !append_assoc3. reflexivity.
  - apply readComment_app.
    change (" " +:+ a) with (String " " a).
    now rewrite hasCommentEnd_space_l.
Qed.

Lemma generateMarkOfTheWebDeclaration_unescaped_witness :
  exists body : string,
    generateMarkOfTheWebDeclaration
      (fun url : string => WTF.chars ("saved from url=" +:+ url))
      "http://example.test/?--><script>" =
      WTF.chars (newline +:+ "<!--" +:+ body)
    /\ readComment body =
         Some (" saved from url=http://example.test/?",
               "<script>" +:+ " -->" +:+ newline).
Proof.
  exact (generateMarkOfTheWebDeclaration_unescaped
           (fun url : string => WTF.chars ("saved from url=" +:+ url))
           "http://example.test/?--><script>"
           "saved from url=http://example.test/?" "<script>" eq_refl eq_refl).
Defined.
